(** * Ruby runtime fingerprinting (googlecloudsdk/api_lib/app/runtimes/ruby.py)

    A shallow embedding of the Ruby fingerprinter of the Cloud SDK: the
    probes of the source tree and of bundler, the choice of interpreter
    version, entrypoint and extra packages, and the generation of app.yaml,
    Dockerfile and .dockerignore.

    Python byte strings are [string]; dictionaries are [gmap]; the [set] of
    packages is a [gset]; the file system is a finite map from path to node.
    Effects (file probes, subprocesses, prompts, log output, raised errors)
    are threaded through a small monad that also records the events of a
    run, so that statements such as "the prompt is never issued" can be
    read off the recorded events. *)

From Stdlib Require Import ZArith Ascii String.
From stdpp Require Import gmap strings list fin_maps sorting.

Local Open Scope string_scope.

(** ** Python string operations used by the module *)

Module Py.

Definition dquote : string := String "034"%char "".
Definition nl : string := String "010"%char "".

Definition is_digit (a : ascii) : bool :=
  match a with
  | "0" | "1" | "2" | "3" | "4" | "5" | "6" | "7" | "8" | "9" => true
  | _ => false
  end%char.

(** Truth value of a [str]: the empty string is false. *)
Definition truthy (s : string) : bool :=
  match s with "" => false | String _ _ => true end.

(** Truth value of a value that is [None] or a [str]. *)
Definition truthy_opt (o : option string) : bool :=
  match o with Some s => truthy s | None => false end.

(** [s.startswith(p)] *)
Fixpoint startswith (p s : string) : bool :=
  match p, s with
  | "", _ => true
  | String a p', String b s' => if decide (a = b) then startswith p' s' else false
  | String _ _, "" => false
  end.

(** [s.endswith("/")] *)
Fixpoint ends_with_slash (s : string) : bool :=
  match s with
  | "" => false
  | String a "" => bool_decide (a = "/"%char)
  | String _ s' => ends_with_slash s'
  end.

(** Longest prefix of characters satisfying [p], and the rest: how a
    greedy [\d+], [\s*] or [\S+] consumes its input. *)
Fixpoint span (p : ascii → bool) (s : string) : string * string :=
  match s with
  | "" => ("", "")
  | String a s' =>
      if p a then let '(x, r) := span p s' in (String a x, r) else ("", s)
  end.

Definition lstrip (s : string) : string := snd (span Ascii.is_space s).

Fixpoint rstrip (s : string) : string :=
  match s with
  | "" => ""
  | String a s' =>
      match rstrip s' with
      | "" => if Ascii.is_space a then "" else String a ""
      | r => String a r
      end
  end.

(** [s.strip()] *)
Definition strip (s : string) : string := rstrip (lstrip s).

(** A line boundary of [splitlines] on a byte string. *)
Definition LF : ascii := "010"%char.
Definition CR : ascii := "013"%char.

(** [s.splitlines()] on a byte string: a line ends at LF, CR or CR LF, and
    no empty last line is produced. *)
Fixpoint splitlines (s : string) : list string :=
  match s with
  | "" => []
  | String a s' =>
      if bool_decide (a = LF) then "" :: splitlines s'
      else if bool_decide (a = CR) then
        "" :: match s' with
              | String b s'' =>
                  if bool_decide (b = LF) then splitlines s'' else splitlines s'
              | "" => []
              end
      else match splitlines s' with
           | [] => [String a ""]
           | l :: ls => String a l :: ls
           end
  end.

(** No line boundary in [s]. *)
Fixpoint single_line (s : string) : bool :=
  match s with
  | "" => true
  | String a s' =>
      negb (bool_decide (a = LF)) && negb (bool_decide (a = CR))
      && single_line s'
  end.

(** [sep.join(l)] *)
Fixpoint join (sep : string) (l : list string) : string :=
  match l with
  | [] => ""
  | [x] => x
  | x :: l' => x +:+ sep +:+ join sep l'
  end.

(** [os.path.join(a, b)] of posixpath. *)
Definition os_path_join (a b : string) : string :=
  if startswith "/" b then b
  else if orb (negb (truthy a)) (ends_with_slash a) then a +:+ b
  else a +:+ "/" +:+ b.

(** [any(l)] *)
Definition any (l : list bool) : bool := existsb id l.

End Py.

(** ** Regular expressions of the module

    Each pattern is a sequence of greedy character classes separated by
    literals that are outside the class before them, so the greedy choice is
    the only way to match and no backtracking is needed. *)

(** [re.match('^No ', s)] *)
Definition match_No (s : string) : bool := Py.startswith "No " s.

(** [re.match(r'^ruby (\d+\.\d+(\.\d+)?)', s)], giving [group(1)]. *)
Definition match_ruby_version (s : string) : option string :=
  match s with
  | String "r"%char (String "u"%char (String "b"%char (String "y"%char
      (String " "%char s1)))) =>
      let '(d1, r1) := Py.span Py.is_digit s1 in
      if Py.truthy d1 then
        match r1 with
        | String "."%char r1' =>
            let '(d2, r2) := Py.span Py.is_digit r1' in
            if Py.truthy d2 then
              match r2 with
              | String "."%char r2' =>
                  let '(d3, _) := Py.span Py.is_digit r2' in
                  if Py.truthy d3 then Some (d1 +:+ "." +:+ d2 +:+ "." +:+ d3)
                  else Some (d1 +:+ "." +:+ d2)
              | _ => Some (d1 +:+ "." +:+ d2)
              end
            else None
        | _ => None
        end
      else None
  | _ => None
  end.

(** [re.match(r'\s*\*\s+(\S+)\s+\(', line)], giving [group(1)]. *)
Definition match_gem_line (line : string) : option string :=
  match snd (Py.span Ascii.is_space line) with
  | String "*"%char r1 =>
      let '(w1, r2) := Py.span Ascii.is_space r1 in
      if Py.truthy w1 then
        let '(name, r3) := Py.span (λ a, negb (Ascii.is_space a)) r2 in
        if Py.truthy name then
          let '(w2, r4) := Py.span Ascii.is_space r3 in
          if Py.truthy w2 then
            match r4 with String "("%char _ => Some name | _ => None end
          else None
        else None
      else None
  | _ => None
  end.

(** ** Module constants *)

(** A dedented triple-quoted literal: every line ends with a newline. *)
Fixpoint text (lines : list string) : string :=
  match lines with
  | [] => ""
  | l :: ls => l +:+ Py.nl +:+ text ls
  end.

Definition NAME : string := "Ruby".
Definition ALLOWED_RUNTIME_NAMES : list string := ["ruby"; "custom"].
Definition PREFERRED_RUBY_VERSION : string := "2.3.0".
Definition BUNDLER_VERSION : string := "1.11.2".
Definition FOREMAN_VERSION : string := "0.78.0".

(** Mapping from Gemfile versions to rbenv versions with patchlevel. *)
Definition RUBY_VERSION_MAP : gmap string string :=
  list_to_map [
    ("1.8.6", "1.8.6-p420");
    ("1.8.7", "1.8.7-p375");
    ("1.9.1", "1.9.1-p430");
    ("1.9.2", "1.9.2-p330");
    ("1.9.3", "1.9.3-p551");
    ("2.0.0", "2.0.0-p648")
  ].

(** Mapping from gems to libraries they expect. *)
Definition GEM_PACKAGES : gmap string (list string) :=
  list_to_map [ ("rgeo", ["libgeos-dev"; "libproj-dev"]) ].

Definition APP_YAML_CONTENTS (runtime entrypoint : string) : string :=
  text [ "env: flex";
         "runtime: " +:+ runtime;
         "entrypoint: " +:+ entrypoint ].

Definition DOCKERIGNORE_CONTENTS : string :=
  text [ ".dockerignore"; "Dockerfile"; ".git"; ".hg"; ".svn" ].

Definition DOCKERFILE_HEADER : string :=
  text [ "# This Dockerfile for a Ruby application was generated by gcloud.";
         "";
         "# The base Dockerfile installs:";
         "# * A number of packages needed by the Ruby runtime and by gems";
         "#   commonly used in Ruby web apps (such as libsqlite3)";
         "# * A recent version of NodeJS";
         "# * A recent version of the standard Ruby runtime to use by default";
         "# * The bundler and foreman gems";
         "FROM gcr.io/google_appengine/ruby" ].

Definition DOCKERFILE_DEFAULT_INTERPRETER : string :=
  text [ "# This Dockerfile uses the default Ruby interpreter installed and";
         "# specified by the base image.";
         "# If you want to use a specific ruby interpreter, provide a";
         "# .ruby-version file, then delete this Dockerfile and re-run";
         "# " +:+ Py.dquote +:+ "gcloud app gen-config --custom" +:+ Py.dquote
           +:+ " to recreate it." ].

Definition DOCKERFILE_CUSTOM_INTERPRETER (v : string) : string :=
  text [ "# Install ruby " +:+ v
           +:+ " if not already preinstalled by the base image";
         "RUN cd /rbenv/plugins/ruby-build && \";
         "    git pull && \";
         "    rbenv install -s " +:+ v +:+ " && \";
         "    rbenv global " +:+ v +:+ " && \";
         "    gem install -q --no-rdoc --no-ri bundler --version "
           +:+ BUNDLER_VERSION +:+ " && \";
         "    gem install -q --no-rdoc --no-ri foreman --version "
           +:+ FOREMAN_VERSION;
         "ENV RBENV_VERSION " +:+ v ].

Definition DOCKERFILE_MORE_PACKAGES (pkgs : string) : string :=
  text [ "# Install additional package dependencies needed by installed gems.";
         "# Feel free to add any more needed by your gems.";
         "RUN apt-get update -y && \";
         "    apt-get install -y -q --no-install-recommends \";
         "        " +:+ pkgs +:+ " \";
         "    && apt-get clean && rm /var/lib/apt/lists/*_*" ].

Definition DOCKERFILE_NO_MORE_PACKAGES : string :=
  text [ "# To install additional packages needed by your gems, uncomment";
         "# the " +:+ Py.dquote +:+ "RUN apt-get update" +:+ Py.dquote
           +:+ " and " +:+ Py.dquote +:+ "RUN apt-get install" +:+ Py.dquote
           +:+ " lines below";
         "# and specify your packages.";
         "# RUN apt-get update";
         "# RUN apt-get install -y -q (your packages here)" ].

Definition DOCKERFILE_GEM_INSTALL : string :=
  text [ "# Install required gems.";
         "COPY Gemfile Gemfile.lock /app/";
         "RUN bundle install --deployment && rbenv rehash" ].

Definition DOCKERFILE_ENTRYPOINT (entrypoint : string) : string :=
  text [ "# Start application on port 8080.";
         "COPY . /app/";
         "ENTRYPOINT " +:+ entrypoint ].

Definition ENTRYPOINT_FOREMAN : string := "foreman start web -p 8080".
Definition ENTRYPOINT_PUMA : string := "bundle exec puma -p 8080 -e deployment".
Definition ENTRYPOINT_UNICORN : string :=
  "bundle exec unicorn -p 8080 -E deployment".
Definition ENTRYPOINT_RACKUP : string :=
  "bundle exec rackup -p 8080 -E deployment config.ru".

(** ** Errors, files, events *)

(** [RubyConfigError] and its two subclasses; [IOError] is what [open]
    raises on a path that it cannot open for reading. *)
Inductive error : Type :=
| RubyConfigError (msg : string)
| MissingGemfileError (msg : string)
| StaleBundleError (msg : string)
| IOError (path : string).

(** What a path of the tree leads to: a regular file that can be read; a
    regular file that [open] refuses, as it does one that the user has no
    permission to read ([os.path.isfile] is True of it all the same); or a
    directory. *)
Inductive node : Type :=
| File (contents : string)
| Unreadable
| Directory.

Abbreviation filesystem := (gmap string node).

(** What a run does to the outside world, in order. *)
Inductive event : Type :=
| EvLogInfo (msg : string)
| EvStatusPrint (msg : string)
| EvCanPrompt
| EvPromptContinue (message prompt_string : string)
| EvPromptResponse (message : string)
| EvIsFile (path : string)
| EvExists (path : string)
| EvRead (path : string)
| EvWrite (path contents : string)
| EvPopen (cmd : string).

(** The surroundings of a run: the console, the shell, and two values of
    modules outside this file. A subprocess may change the tree (bundler
    creates Gemfile.lock); it ends with an exit status and its output. *)
Record Collaborators : Type := {
  CanPrompt : bool;
  PromptContinue : string → string → bool;
  PromptResponse : string → string;
  Popen : string → filesystem → filesystem * (Z * string);
  GetNonInteractiveErrorMessage : string;
  config_DOCKERFILE : string
}.

(** ** The monad of effects *)

Inductive outcome (A : Type) : Type :=
| Returned (a : A)
| Raised (e : error).
Arguments Returned {A} a.
Arguments Raised {A} e.

Record Run (A : Type) : Type := MkRun {
  result : outcome A;
  files : filesystem;
  events : list event
}.
Arguments MkRun {A} _ _ _.
Arguments result {A} _.
Arguments files {A} _.
Arguments events {A} _.

Definition M (A : Type) : Type := filesystem → Run A.

Definition ret {A} (a : A) : M A := λ fs, MkRun (Returned a) fs [].

Definition bind {A B} (m : M A) (k : A → M B) : M B := λ fs,
  let r := m fs in
  match result r with
  | Returned a =>
      let r' := k a (files r) in
      MkRun (result r') (files r') (events r ++ events r')
  | Raised e => MkRun (Raised e) (files r) (events r)
  end.

Definition raise {A} (e : error) : M A := λ fs, MkRun (Raised e) fs [].

Declare Scope effect_scope.
Delimit Scope effect_scope with effect.
Bind Scope effect_scope with M.
Notation "x ← y ; z" := (bind y (λ x : _, z))
  (at level 20, y at level 100, z at level 200, only parsing) : effect_scope.
Notation "' x ← y ; z" := (bind y (λ x : _, z))
  (at level 20, x pattern, y at level 100, z at level 200, only parsing)
  : effect_scope.
Notation "x ;; z" := (bind x (λ _, z))
  (at level 100, z at level 200, only parsing, right associativity)
  : effect_scope.
Local Open Scope effect_scope.

Definition emit (ev : event) : M unit := λ fs, MkRun (Returned ()) fs [ev].

Fixpoint mapM {A B} (f : A → M B) (l : list A) : M (list B) :=
  match l with
  | [] => ret []
  | x :: l' => y ← f x; ys ← mapM f l'; ret (y :: ys)
  end.

Fixpoint filterM {A} (p : A → M bool) (l : list A) : M (list A) :=
  match l with
  | [] => ret []
  | x :: l' => b ← p x; ys ← filterM p l'; ret (if b then x :: ys else ys)
  end.

(** ** Primitive effects *)

(** [os.path.isfile] looks at the kind of the node, not at its
    permissions. *)
Definition is_file (fs : filesystem) (path : string) : bool :=
  match fs !! path with
  | Some (File _) | Some Unreadable => true
  | _ => false
  end.

Definition path_exists (fs : filesystem) (path : string) : bool :=
  bool_decide (is_Some (fs !! path)).

Definition os_path_isfile (path : string) : M bool := λ fs,
  MkRun (Returned (is_file fs path)) fs [EvIsFile path].

Definition os_path_exists (path : string) : M bool := λ fs,
  MkRun (Returned (path_exists fs path)) fs [EvExists path].

(** [with open(path) as f: return f.read()]: the content of a file that can
    be read; [open] raises on a file that cannot, on a directory and on a
    path that leads nowhere. *)
Definition read_file (path : string) : M string := λ fs,
  match fs !! path with
  | Some (File c) => MkRun (Returned c) fs [EvRead path]
  | _ => MkRun (Raised (IOError path)) fs [EvRead path]
  end.

(** [with open(path, 'w') as f: f.write(contents)] *)
Definition write_file (path contents : string) : M unit := λ fs,
  MkRun (Returned ()) (<[path := File contents]> fs) [EvWrite path contents].

Definition log_info (msg : string) : M unit := emit (EvLogInfo msg).
Definition log_status_Print (msg : string) : M unit := emit (EvStatusPrint msg).

(** ** Parameters and generated files *)

(** The two attributes of the parsed app.yaml that the module reads. *)
Record AppInfoExternal : Type := {
  GetEffectiveRuntime : string;
  appinfo_entrypoint : option string
}.

Record Params : Type := {
  appinfo : option AppInfoExternal;
  custom : bool;
  deploy : bool
}.

Record GeneratedFile : Type := {
  filename : string;
  contents : string
}.

Record RubyConfigurator : Type := {
  root : string;
  params : Params;
  ruby_version : option string;
  entrypoint : string;
  packages : list string
}.

(** [if appinfo and appinfo.entrypoint] *)
Definition configured_entrypoint (ai : option AppInfoExternal) : option string :=
  match ai with
  | Some a => if Py.truthy_opt (appinfo_entrypoint a) then appinfo_entrypoint a
              else None
  | None => None
  end.

(** Messages to the console or to the log, depending on whether this is a
    deploy. *)
Definition notify (p : Params) : string → M unit :=
  if deploy p then log_info else log_status_Print.

(** Modelled from the spec: [ext_runtime.GeneratedFile.WriteTo] belongs to a
    module that is not among the sources. The spec's WriteArtifact "writes
    only if absent at root/artifact.filename; returns whether a write
    occurred", and the content is written as a single unit. The spec gives
    it no notification of its own, so the callback is not used. *)
Definition WriteTo (f : GeneratedFile) (dest_dir : string)
    (notify_fn : string → M unit) : M bool :=
  let path := Py.os_path_join dest_dir (filename f) in
  present ← os_path_exists path;
  if present then ret false
  else write_file path (contents f);; ret true.

(** ** Extra packages *)

(** One turn of the loop over the gems, for a table of any content. *)
Definition package_set_update (table : gmap string (list string))
    (package_set : gset string) (gem : string) : gset string :=
  match table !! gem with
  | Some pkgs => package_set ∪ list_to_set pkgs
  | None => package_set
  end.

Definition needed_packages_in (table : gmap string (list string))
    (gems : list string) : list string :=
  let package_set := foldl (package_set_update table) ∅ gems in
  merge_sort String.le (elements package_set).

Definition _DetectNeededPackages (gems : list string) : list string :=
  needed_packages_in GEM_PACKAGES gems.

(** A package is contributed by the gems when one of them is in the table
    with a list that has it. *)
Definition contributed (table : gmap string (list string))
    (gems : list string) (p : string) : Prop :=
  ∃ gem pkgs, gem ∈ gems ∧ table !! gem = Some pkgs ∧ p ∈ pkgs.

(** The claim's wording, for comparison: the package lists of the gems that
    the table knows, put together, without duplicates, sorted. *)
Definition sorted_union_of_mapped (table : gmap string (list string))
    (gems : list string) : list string :=
  merge_sort String.le
    (remove_dups (mjoin (omap (λ gem, table !! gem) gems))).

(** ** Config generation *)

Section Configurator.
Variable env : Collaborators.

Definition _GenerateAppYaml (self : RubyConfigurator) : GeneratedFile :=
  let runtime := if custom (params self) then "custom" else "ruby" in
  let app_yaml_contents := APP_YAML_CONTENTS runtime (entrypoint self) in
  {| filename := "app.yaml"; contents := app_yaml_contents |}.

Definition _GenerateDockerfile (self : RubyConfigurator) : GeneratedFile :=
  let dockerfile_content :=
    [ DOCKERFILE_HEADER;
      match ruby_version self with
      | Some v => if Py.truthy v then DOCKERFILE_CUSTOM_INTERPRETER v
                  else DOCKERFILE_DEFAULT_INTERPRETER
      | None => DOCKERFILE_DEFAULT_INTERPRETER
      end;
      match packages self with
      | [] => DOCKERFILE_NO_MORE_PACKAGES
      | _ => DOCKERFILE_MORE_PACKAGES (Py.join " " (packages self))
      end;
      DOCKERFILE_GEM_INSTALL;
      DOCKERFILE_ENTRYPOINT (entrypoint self) ] in
  {| filename := config_DOCKERFILE env;
     contents := Py.join Py.nl dockerfile_content |}.

Definition _GenerateDockerignore (self : RubyConfigurator) : GeneratedFile :=
  {| filename := ".dockerignore"; contents := DOCKERIGNORE_CONTENTS |}.

(** The files that [GenerateConfigs] sets out to write. *)
Definition all_config_files (self : RubyConfigurator) : list GeneratedFile :=
  match appinfo (params self) with
  | Some _ => []
  | None => [_GenerateAppYaml self]
  end ++
  (if custom (params self) || deploy (params self)
   then [_GenerateDockerfile self; _GenerateDockerignore self] else []).

Definition GenerateConfigs (self : RubyConfigurator) : M bool :=
  created ← mapM (λ config_file,
                    WriteTo config_file (root self) (notify (params self)))
                 (all_config_files self);
  (if negb (Py.any created)
   then notify (params self)
          "All config files already exist. No files generated."
   else ret ());;
  ret (Py.any created).

Definition GenerateConfigData (self : RubyConfigurator)
    : M (list GeneratedFile) :=
  match appinfo (params self) with
  | Some _ => ret ()
  | None =>
      WriteTo (_GenerateAppYaml self) (root self) (notify (params self));;
      ret ()
  end;;
  let all_config_files :=
    if custom (params self) || deploy (params self)
    then [_GenerateDockerfile self; _GenerateDockerignore self] else [] in
  filterM (λ f, present ← os_path_exists
                             (Py.os_path_join (root self) (filename f));
                ret (negb present))
          all_config_files.

(** ** Subprocesses and files *)

Definition _RunSubprocess (cmd : string) : M string := λ fs,
  let '(fs', (status, stdout)) := Popen env cmd fs in
  if decide (status ≠ 0%Z)
  then MkRun (Raised (RubyConfigError
                        ("Unable to run script: [" +:+ cmd +:+ "]")))
             fs' [EvPopen cmd]
  else MkRun (Returned stdout) fs' [EvPopen cmd].

Definition _SubprocessSucceeds (cmd : string) : M bool := λ fs,
  let '(fs', (status, _)) := Popen env cmd fs in
  MkRun (Returned (bool_decide (status = 0%Z))) fs' [EvPopen cmd].

Definition _ReadFile (root filename : string) (required : bool)
    : M (option string) :=
  let path := Py.os_path_join root filename in
  isfile ← os_path_isfile path;
  if negb isfile then
    if required
    then raise (RubyConfigError
                  ("Could not find required file: [" +:+ filename +:+ "]"))
    else ret None
  else
    c ← read_file path; ret (Some c).

(** ** Console *)

Definition console_io_CanPrompt : M bool := λ fs,
  MkRun (Returned (CanPrompt env)) fs [EvCanPrompt].

Definition console_io_PromptContinue (message prompt_string : string)
    : M bool := λ fs,
  MkRun (Returned (PromptContinue env message prompt_string)) fs
        [EvPromptContinue message prompt_string].

Definition console_io_PromptResponse (message : string) : M string := λ fs,
  MkRun (Returned (PromptResponse env message)) fs [EvPromptResponse message].

(** ** Fingerprinting *)

Definition _CheckForRubyRuntime (path : string)
    (appinfo : option AppInfoExternal) : M bool :=
  if match appinfo with
     | Some a => bool_decide (GetEffectiveRuntime a = "ruby")
     | None => false
     end
  then ret true
  else
    log_info "Checking for Ruby.";;
    let gemfile_path := Py.os_path_join path "Gemfile" in
    isfile ← os_path_isfile gemfile_path;
    if negb isfile then ret false
    else
      let got_ruby_message := "This looks like a Ruby application." in
      can ← console_io_CanPrompt;
      if can
      then console_io_PromptContinue got_ruby_message
             "Proceed to configure deployment for Ruby?"
      else log_info got_ruby_message;; ret true.

Definition gemfile_lock_notice : string :=
  Py.nl +:+ "NOTICE: We could not find a Gemfile.lock, which suggests this "
  +:+ "application has not been tested locally, or the Gemfile.lock has "
  +:+ "not been committed to source control. We have created a "
  +:+ "Gemfile.lock for you, but it is recommended that you verify it "
  +:+ "yourself (by installing your bundle and testing locally) to "
  +:+ "ensure that the gems we deploy are the same as those you tested.".

Definition bundler_missing_notice : string :=
  Py.nl +:+ "NOTICE: gcloud could not run bundler in your local environment, "
  +:+ "and so its ability to determine your application's requirements "
  +:+ "will be limited. We will still attempt to deploy your application, "
  +:+ "but if your application has trouble starting up due to missing "
  +:+ "requirements, we recommend installing bundler by running "
  +:+ "[gem install bundler]".

Definition _CheckEnvironment (path : string) : M bool :=
  gemfile ← os_path_isfile (Py.os_path_join path "Gemfile");
  if negb gemfile
  then raise (MissingGemfileError "Gemfile is required for Ruby runtime.")
  else
    gemfile_lock_present ← os_path_isfile (Py.os_path_join path "Gemfile.lock");
    bundler_available ← _SubprocessSucceeds "bundle version";
    (if bundler_available then
       check ← _SubprocessSucceeds "bundle check";
       if negb check
       then raise (StaleBundleError
                     ("Your bundle is not up-to-date. "
                      +:+ "Install missing gems with 'bundle install'."))
       else if negb gemfile_lock_present
            then log_status_Print gemfile_lock_notice
            else ret ()
     else log_status_Print bundler_missing_notice);;
    ret bundler_available.

(** [RUBY_VERSION_MAP.get(ruby_version, ruby_version)] *)
Definition rbenv_version (ruby_version : string) : string :=
  default ruby_version (RUBY_VERSION_MAP !! ruby_version).

Definition default_interpreter_notice : string :=
  Py.nl +:+ "NOTICE: We will deploy your application using a recent version of "
  +:+ "the standard " +:+ Py.dquote +:+ "MRI" +:+ Py.dquote
  +:+ " Ruby runtime by default. If you want to use a "
  +:+ "specific Ruby runtime, you can create a " +:+ Py.dquote
  +:+ ".ruby-version" +:+ Py.dquote +:+ " file in this "
  +:+ "directory. (For best performance, we recommend MRI version "
  +:+ PREFERRED_RUBY_VERSION +:+ ".)".

(** The fallback of [_DetectRubyInterpreter]: the .ruby-version file, then
    the default of the base image. *)
Definition ruby_version_file (path : string) : M (option string) :=
  ruby_version ← _ReadFile path ".ruby-version" false;
  if Py.truthy_opt ruby_version then
    let ruby_version := Py.strip (default "" ruby_version) in
    log_status_Print (Py.nl +:+ "Using Ruby " +:+ ruby_version
                      +:+ " as requested in the .ruby-version file");;
    ret (Some ruby_version)
  else
    log_status_Print default_interpreter_notice;;
    ret None.

Definition _DetectRubyInterpreter (path : string) (bundler_available : bool)
    : M (option string) :=
  if bundler_available then
    ruby_info ← _RunSubprocess "bundle platform --ruby";
    if negb (match_No ruby_info) then
      match match_ruby_version ruby_info with
      | Some ruby_version =>
          let ruby_version := rbenv_version ruby_version in
          log_status_Print (Py.nl +:+ "Using Ruby " +:+ ruby_version
                            +:+ " as requested in the Gemfile.");;
          ret (Some ruby_version)
      | None =>
          log_status_Print ("Unrecognized platform in Gemfile: ["
                            +:+ ruby_info +:+ "]");;
          ruby_version_file path
      end
    else ruby_version_file path
  else ruby_version_file path.

Definition _DetectGems (bundler_available : bool) : M (list string) :=
  if bundler_available then
    out ← _RunSubprocess "bundle list";
    ret (omap match_gem_line (Py.splitlines out))
  else ret [].

Definition _DetectDefaultEntrypoint (path : string) (gems : list string)
    : M string :=
  let procfile_path := Py.os_path_join path "Procfile" in
  procfile ← os_path_isfile procfile_path;
  if procfile then ret ENTRYPOINT_FOREMAN
  else if bool_decide ("puma" ∈ gems) then ret ENTRYPOINT_PUMA
  else if bool_decide ("unicorn" ∈ gems) then ret ENTRYPOINT_UNICORN
  else
    let configru_path := Py.os_path_join path "config.ru" in
    configru ← os_path_isfile configru_path;
    if configru then ret ENTRYPOINT_RACKUP
    else ret "".

Definition non_interactive_message : string :=
  "This appears to be a Ruby app. You'll need to provide the full "
  +:+ "command to run the app in production, but gcloud is not running "
  +:+ "interactively and cannot ask for the entrypoint"
  +:+ GetNonInteractiveErrorMessage env +:+ ". Please either "
  +:+ "run gcloud interactively, or create an app.yaml with "
  +:+ Py.dquote +:+ "runtime:ruby" +:+ Py.dquote +:+ " and an "
  +:+ Py.dquote +:+ "entrypoint" +:+ Py.dquote +:+ " field.".

Definition prompt_with_default (default_entrypoint : string) : string :=
  Py.nl +:+ "Please enter the command to run this Ruby app in "
  +:+ "production, or leave blank to accept the default:"
  +:+ Py.nl +:+ "[" +:+ default_entrypoint +:+ "] ".

Definition prompt_without_default : string :=
  Py.nl +:+ "Please enter the command to run this Ruby app in "
  +:+ "production: ".

Definition _ChooseEntrypoint (default_entrypoint : string)
    (appinfo : option AppInfoExternal) : M string :=
  can ← console_io_CanPrompt;
  if can then
    entrypoint ←
      (if Py.truthy default_entrypoint
       then console_io_PromptResponse (prompt_with_default default_entrypoint)
       else console_io_PromptResponse prompt_without_default);
    let entrypoint := Py.strip entrypoint in
    entrypoint ←
      (if negb (Py.truthy entrypoint) then
         if negb (Py.truthy default_entrypoint)
         then raise (RubyConfigError "Entrypoint command is required.")
         else ret default_entrypoint
       else ret entrypoint);
    match appinfo with
    | Some _ =>
        log_status_Print
          (Py.nl +:+ "To avoid being asked for an entrypoint in the future, "
           +:+ "please add it to your app.yaml. e.g." +:+ Py.nl
           +:+ "  entrypoint: " +:+ entrypoint)
    | None => ret ()
    end;;
    ret entrypoint
  else raise (RubyConfigError non_interactive_message).

Definition Fingerprint (path : string) (params : Params)
    : M (option RubyConfigurator) :=
  let appinfo := appinfo params in
  is_ruby ← _CheckForRubyRuntime path appinfo;
  if negb is_ruby then ret None
  else
    bundler_available ← _CheckEnvironment path;
    gems ← _DetectGems bundler_available;
    ruby_version ← _DetectRubyInterpreter path bundler_available;
    let packages := _DetectNeededPackages gems in
    entrypoint ←
      match configured_entrypoint appinfo with
      | Some e => ret e
      | None =>
          default_entrypoint ← _DetectDefaultEntrypoint path gems;
          _ChooseEntrypoint default_entrypoint appinfo
      end;
    ret (Some {| root := path; params := params;
                 ruby_version := ruby_version; entrypoint := entrypoint;
                 packages := packages |}).

End Configurator.


(** ** Observations on the events of a run *)

(** A use of the console: the question whether it can prompt, the yes/no
    confirmation, the free-text question. *)
Definition console_event (ev : event) : bool :=
  match ev with
  | EvCanPrompt | EvPromptContinue _ _ | EvPromptResponse _ => true
  | _ => false
  end.

(** A step of entrypoint resolution: a probe of [_DetectDefaultEntrypoint]
    (it looks for Procfile first, for config.ru last) or the question of
    [_ChooseEntrypoint]. *)
Definition entrypoint_event (path : string) (ev : event) : bool :=
  match ev with
  | EvPromptResponse _ => true
  | EvIsFile p =>
      bool_decide (p = Py.os_path_join path "Procfile")
      || bool_decide (p = Py.os_path_join path "config.ru")
  | _ => false
  end.

(** Every event of every run of [m] satisfies [P]. *)
Definition emits {A} (P : event → Prop) (m : M A) : Prop :=
  ∀ fs, Forall P (events (m fs)).

(** A write to the tree. *)
Definition write_event (ev : event) : bool :=
  match ev with EvWrite _ _ => true | _ => false end.

(** No run of [m] removes or changes a node of the tree. *)
Definition keeps_files {A} (m : M A) : Prop :=
  ∀ fs p n, fs !! p = Some n → files (m fs) !! p = Some n.

(** ** The shell, as the environment check meets it *)

Definition exit_status (env : Collaborators) (cmd : string) (fs : filesystem)
    : Z := fst (snd (Popen env cmd fs)).

Definition tree_after (env : Collaborators) (cmd : string) (fs : filesystem)
    : filesystem := fst (Popen env cmd fs).

(** [bundle version] succeeds: bundler is available. *)
Definition bundler_works (env : Collaborators) (fs : filesystem) : Prop :=
  exit_status env "bundle version" fs = 0%Z.

(** [bundle check], run after [bundle version], fails: the bundle is stale. *)
Definition bundle_check_fails (env : Collaborators) (fs : filesystem) : Prop :=
  exit_status env "bundle check" (tree_after env "bundle version" fs) ≠ 0%Z.

Definition stdout_of (env : Collaborators) (cmd : string) (fs : filesystem)
    : string := snd (snd (Popen env cmd fs)).

(** ** Further observations *)

(** Every character of [s] satisfies [p]. *)
Fixpoint all_chars (p : ascii → bool) (s : string) : bool :=
  match s with
  | "" => true
  | String a s' => p a && all_chars p s'
  end.

Definition not_space (a : ascii) : bool := negb (Ascii.is_space a).

(** The first character of [s], if any, fails [p]: where a greedy class
    stops. *)
Definition stops (p : ascii → bool) (s : string) : Prop :=
  match s with
  | "" => True
  | String a _ => p a = false
  end.

(** An error of the module: [RubyConfigError] or one of its subclasses. *)
Definition is_config_error (e : error) : bool :=
  match e with
  | RubyConfigError _ | MissingGemfileError _ | StaleBundleError _ => true
  | IOError _ => false
  end.

(** Every error that a run of [m] raises satisfies [Q], together with the
    tree that the run leaves behind. *)
Definition raises_only {A} (Q : error → filesystem → Prop) (m : M A) : Prop :=
  ∀ fs e, result (m fs) = Raised e → Q e (files (m fs)).

(** An error of one of the kinds [ok], or else the error of [open] on a
    .ruby-version that cannot be read. *)
Definition raises_within (ok : error → bool) (path : string)
    (e : error) (fs : filesystem) : Prop :=
  ok e = true
  ∨ (e = IOError (Py.os_path_join path ".ruby-version")
     ∧ fs !! Py.os_path_join path ".ruby-version" = Some Unreadable).

(** No run of [m] changes the tree. *)
Definition keeps_tree {A} (m : M A) : Prop := ∀ fs, files (m fs) = fs.

(** The shell leaves the tree as it is, whatever the command. *)
Definition shell_keeps_tree (env : Collaborators) : Prop :=
  ∀ cmd fs, tree_after env cmd fs = fs.

(** What a fingerprint may do to the outside: run one of the four bundler
    commands, probe and read files, use the console, print. It may not
    write a file or ask whether a path exists. *)
Definition fingerprint_event (ev : event) : bool :=
  match ev with
  | EvPopen cmd =>
      bool_decide (cmd ∈ ["bundle version"; "bundle check";
                          "bundle platform --ruby"; "bundle list"])
  | EvWrite _ _ | EvExists _ => false
  | _ => true
  end.

(** A subprocess other than [bundle version]. *)
Definition beyond_bundle_version (ev : event) : bool :=
  match ev with
  | EvPopen cmd => negb (bool_decide (cmd = "bundle version"))
  | _ => false
  end.

(** The hint of [_ChooseEntrypoint] to a user whose app.yaml has no
    entrypoint. *)
Definition entrypoint_hint (entrypoint : string) : string :=
  Py.nl +:+ "To avoid being asked for an entrypoint in the future, "
  +:+ "please add it to your app.yaml. e.g." +:+ Py.nl
  +:+ "  entrypoint: " +:+ entrypoint.

(** The path of a generated file under the root. *)
Definition target (dest : string) (f : GeneratedFile) : string :=
  Py.os_path_join dest (filename f).

(** A plain [RubyConfigError], not one of its subclasses. *)
Definition is_plain_config_error (e : error) : bool :=
  match e with RubyConfigError _ => true | _ => false end.

(** A subprocess. *)
Definition popen_event (ev : event) : bool :=
  match ev with EvPopen _ => true | _ => false end.

(** [appinfo and appinfo.GetEffectiveRuntime() == 'ruby'] *)
Definition declares_ruby (ai : option AppInfoExternal) : bool :=
  match ai with
  | Some a => bool_decide (GetEffectiveRuntime a = "ruby")
  | None => false
  end.

(** The yes/no confirmation of the console. *)
Definition confirmation_event (ev : event) : bool :=
  match ev with EvPromptContinue _ _ => true | _ => false end.

(** The answer to the confirmation of the candidate check. *)
Definition confirms_ruby (env : Collaborators) : bool :=
  PromptContinue env "This looks like a Ruby application."
                     "Proceed to configure deployment for Ruby?".

(** The message of [GenerateConfigs] when it has written nothing, as the
    event that [notify] makes of it. *)
Definition nothing_generated (p : Params) : event :=
  (if deploy p then EvLogInfo else EvStatusPrint)
    "All config files already exist. No files generated.".

(** The files that go into the container build, when one is asked for. *)
Definition docker_files (env : Collaborators) (self : RubyConfigurator)
    : list GeneratedFile :=
  if custom (params self) || deploy (params self)
  then [_GenerateDockerfile env self; _GenerateDockerignore self] else [].

(** The last character of [s], if any, is not white space. *)
Fixpoint ends_clean (s : string) : bool :=
  match s with
  | "" => true
  | String a "" => negb (Ascii.is_space a)
  | String _ s' => ends_clean s'
  end.

(** ** Scenarios

    Concrete surroundings and trees on which the module is run below. *)

(** A shell with bundler: every bundle command succeeds; the platform and
    the list of gems are as given. Other commands fail. *)
Definition bundler_shell (platform gem_list : string)
    (cmd : string) (fs : filesystem) : filesystem * (Z * string) :=
  if decide (cmd = "bundle version") then (fs, (0%Z, "Bundler version 1.11.2"))
  else if decide (cmd = "bundle check")
       then (fs, (0%Z, "The Gemfile's dependencies are satisfied"))
  else if decide (cmd = "bundle platform --ruby") then (fs, (0%Z, platform))
  else if decide (cmd = "bundle list") then (fs, (0%Z, gem_list))
  else (fs, (127%Z, "")).

(** A shell without bundler: every command fails. *)
Definition bare_shell (cmd : string) (fs : filesystem)
    : filesystem * (Z * string) := (fs, (127%Z, "")).

Definition puma_gem_list : string :=
  text [ "Gems included by the bundle:";
         "  * puma (2.15.3)";
         "  * rack (1.6.4)" ].

(** A run that cannot prompt (a script), with bundler and puma. *)
Definition batch_env : Collaborators := {|
  CanPrompt := false;
  PromptContinue := λ _ _, true;
  PromptResponse := λ _, "";
  Popen := bundler_shell ("No ruby version specified" +:+ Py.nl) puma_gem_list;
  GetNonInteractiveErrorMessage := "";
  config_DOCKERFILE := "Dockerfile"
|}.

(** A terminal where the user accepts every default, without bundler. *)
Definition terminal_env : Collaborators := {|
  CanPrompt := true;
  PromptContinue := λ _ _, true;
  PromptResponse := λ _, "";
  Popen := bare_shell;
  GetNonInteractiveErrorMessage := "";
  config_DOCKERFILE := "Dockerfile"
|}.

Definition gemfile_tree : filesystem :=
  {[ "app/Gemfile" := File "source 'https://rubygems.org'" ]}.

Definition rack_tree : filesystem :=
  <[ "app/config.ru" := File "run App" ]> gemfile_tree.

Definition no_appinfo : Params :=
  {| appinfo := None; custom := false; deploy := false |}.

(** An app.yaml of a custom runtime that names its entrypoint. *)
Definition custom_appinfo : Params :=
  {| appinfo := Some {| GetEffectiveRuntime := "custom";
                        appinfo_entrypoint := Some "bundle exec rackup" |};
     custom := false; deploy := false |}.

(** An app.yaml of the ruby runtime that names its entrypoint. *)
Definition ruby_appinfo : Params :=
  {| appinfo := Some {| GetEffectiveRuntime := "ruby";
                        appinfo_entrypoint := Some "bundle exec rackup" |};
     custom := false; deploy := false |}.

(** A tree that pins its interpreter in .ruby-version. *)
Definition pinned_tree : filesystem :=
  <[ "app/.ruby-version" := File ("2.0.0" +:+ Py.nl) ]> rack_tree.

(** A tree whose .ruby-version the user has no permission to read. *)
Definition protected_tree : filesystem :=
  <[ "app/.ruby-version" := Unreadable ]> rack_tree.

(** A run that cannot prompt, with bundler, whose Gemfile asks for ruby
    2.0.0. *)
Definition gemfile_ruby_env : Collaborators := {|
  CanPrompt := false;
  PromptContinue := λ _ _, true;
  PromptResponse := λ _, "";
  Popen := bundler_shell ("ruby 2.0.0p645" +:+ Py.nl) puma_gem_list;
  GetNonInteractiveErrorMessage := "";
  config_DOCKERFILE := "Dockerfile"
|}.

(** A configurator for the ruby runtime with an app.yaml in place. *)
Definition rackup_configurator : RubyConfigurator :=
  {| root := "app"; params := ruby_appinfo; ruby_version := None;
     entrypoint := "bundle exec rackup"; packages := [] |}.

(** A configurator for a deploy without app.yaml. *)
Definition deploy_configurator : RubyConfigurator :=
  {| root := "app";
     params := {| appinfo := None; custom := false; deploy := true |};
     ruby_version := Some "2.0.0-p648";
     entrypoint := "bundle exec rackup";
     packages := ["libgeos-dev"; "libproj-dev"] |}.

(** A tree with a Dockerfile written by hand. *)
Definition customised_tree : filesystem :=
  <[ "app/Dockerfile" := File "FROM ruby:2.3" ]> gemfile_tree.

(** * Properties *)

(** ** Extra packages: [_DetectNeededPackages] *)

Section NeededPackages.
Variable table : gmap string (list string).

Lemma package_set_loop gems : ∀ (acc : gset string) p,
  p ∈ foldl (package_set_update table) acc gems ↔ p ∈ acc ∨ contributed table gems p.
Proof.
  induction gems as [|gem gems IH]; intros acc p; simpl.
  - split; [auto|]. intros [?|(g & ? & Hg & _)]; [done|]. by apply elem_of_nil in Hg.
  - rewrite IH. unfold package_set_update at 1, contributed.
    destruct (table !! gem) as [pkgs|] eqn:Hgem.
    + rewrite elem_of_union, elem_of_list_to_set. split.
      * intros [[?|?]|(g & ps & ? & ? & ?)]; [by left| |].
        -- right. exists gem, pkgs. by rewrite elem_of_cons; auto.
        -- right. exists g, ps. by rewrite elem_of_cons; auto.
      * intros [?|(g & ps & [->|?]%elem_of_cons & Hg & ?)]; [by auto| |].
        -- rewrite Hgem in Hg. injection Hg as <-. auto.
        -- right. by exists g, ps.
    + split.
      * intros [?|(g & ps & ? & ? & ?)]; [by left|].
        right. exists g, ps. by rewrite elem_of_cons; auto.
      * intros [?|(g & ps & [->|?]%elem_of_cons & Hg & ?)]; [by auto| |].
        -- congruence.
        -- right. by exists g, ps.
Qed.

Lemma needed_packages_in_elem gems p :
  p ∈ needed_packages_in table gems ↔ contributed table gems p.
Proof.
  unfold needed_packages_in. rewrite merge_sort_Permutation, elem_of_elements.
  rewrite package_set_loop. split; [|by right].
  intros [H|?]; [|done]. by apply not_elem_of_empty in H.
Qed.

Lemma needed_packages_in_sorted gems :
  Sorted String.le (needed_packages_in table gems).
Proof. apply (Sorted_merge_sort _). Qed.

Lemma needed_packages_in_NoDup gems : NoDup (needed_packages_in table gems).
Proof.
  unfold needed_packages_in. rewrite merge_sort_Permutation.
  apply NoDup_elements.
Qed.

(** A sorted list without duplicates is determined by its members. *)
Lemma sorted_set_unique (l k : list string) :
  Sorted String.le l → Sorted String.le k → NoDup l → NoDup k →
  (∀ x, x ∈ l ↔ x ∈ k) → l = k.
Proof.
  intros Hl Hk Dl Dk Hmem.
  apply (Sorted_unique String.le); [done..|]. by apply NoDup_Permutation.
Qed.

Lemma contributed_omap gems p :
  p ∈ mjoin (omap (λ gem, table !! gem) gems) ↔ contributed table gems p.
Proof.
  rewrite list_elem_of_join. unfold contributed. split.
  - intros (pkgs & ? & (gem & ? & ?)%list_elem_of_omap). by exists gem, pkgs.
  - intros (gem & pkgs & ? & ? & ?). exists pkgs. split; [done|].
    apply list_elem_of_omap. by exists gem.
Qed.

Lemma needed_packages_in_spec gems :
  needed_packages_in table gems = sorted_union_of_mapped table gems.
Proof.
  apply sorted_set_unique.
  - apply needed_packages_in_sorted.
  - apply (Sorted_merge_sort _).
  - apply needed_packages_in_NoDup.
  - unfold sorted_union_of_mapped. rewrite merge_sort_Permutation.
    apply NoDup_remove_dups.
  - intros p. rewrite needed_packages_in_elem. unfold sorted_union_of_mapped.
    by rewrite merge_sort_Permutation, elem_of_remove_dups, contributed_omap.
Qed.

Lemma needed_packages_in_same_gems gems gems' :
  (∀ g, g ∈ gems ↔ g ∈ gems') →
  needed_packages_in table gems = needed_packages_in table gems'.
Proof.
  intros Hsame. apply sorted_set_unique;
    auto using needed_packages_in_sorted, needed_packages_in_NoDup.
  intros p. rewrite !needed_packages_in_elem. unfold contributed.
  by setoid_rewrite Hsame.
Qed.

Lemma needed_packages_in_unknown gem gems :
  table !! gem = None →
  needed_packages_in table (gem :: gems) = needed_packages_in table gems.
Proof.
  intros Hgem. unfold needed_packages_in. simpl.
  unfold package_set_update at 2. by rewrite Hgem.
Qed.

End NeededPackages.

(** C3. For every gem list the extra-package list is the sorted union,
    without duplicates, of the package lists that GEM_PACKAGES gives to the
    gems it knows: it equals that list as the claim words it, it is sorted
    and free of duplicates, its members are exactly the packages of the
    known gems, a gem outside the table adds nothing, and any list with the
    same gems (reordered, with repetitions) gives the same result. *)
Theorem C3_needed_packages_sorted_union (gems : list string) :
  _DetectNeededPackages gems = sorted_union_of_mapped GEM_PACKAGES gems
  ∧ Sorted String.le (_DetectNeededPackages gems)
  ∧ NoDup (_DetectNeededPackages gems)
  ∧ (∀ p, p ∈ _DetectNeededPackages gems ↔
          ∃ gem pkgs, gem ∈ gems ∧ GEM_PACKAGES !! gem = Some pkgs ∧ p ∈ pkgs)
  ∧ (∀ gem, GEM_PACKAGES !! gem = None →
            _DetectNeededPackages (gem :: gems) = _DetectNeededPackages gems)
  ∧ (∀ gems', gems' ≡ₚ gems →
              _DetectNeededPackages gems' = _DetectNeededPackages gems)
  ∧ (∀ gems', (∀ g, g ∈ gems' ↔ g ∈ gems) →
              _DetectNeededPackages gems' = _DetectNeededPackages gems).
Proof.
  unfold _DetectNeededPackages. split_and!.
  - apply needed_packages_in_spec.
  - apply needed_packages_in_sorted.
  - apply needed_packages_in_NoDup.
  - intros p. apply needed_packages_in_elem.
  - intros gem. apply needed_packages_in_unknown.
  - intros gems' Hperm. apply needed_packages_in_same_gems.
    intros g. by rewrite Hperm.
  - intros gems'. apply needed_packages_in_same_gems.
Qed.

(** The table as it stands: rgeo asks for two libraries, whatever else is in
    the bundle and however often it is listed. *)
Example needed_packages_rgeo :
  _DetectNeededPackages ["rake"; "rgeo"; "puma"; "rgeo"]
  = ["libgeos-dev"; "libproj-dev"].
Proof. vm_compute. reflexivity. Qed.

Example needed_packages_none : _DetectNeededPackages ["rake"; "puma"] = [].
Proof. vm_compute. reflexivity. Qed.

(** ** Runs of the monad *)

Lemma bind_result {A B} (m : M A) (k : A → M B) fs :
  result (bind m k fs) =
  match result (m fs) with
  | Returned a => result (k a (files (m fs)))
  | Raised e => Raised e
  end.
Proof. unfold bind. by destruct (result (m fs)). Qed.

Lemma bind_events {A B} (m : M A) (k : A → M B) fs :
  events (bind m k fs) =
  match result (m fs) with
  | Returned a => (events (m fs) ++ events (k a (files (m fs))))%list
  | Raised _ => events (m fs)
  end.
Proof. unfold bind. by destruct (result (m fs)). Qed.

Lemma bind_files {A B} (m : M A) (k : A → M B) fs :
  files (bind m k fs) =
  match result (m fs) with
  | Returned a => files (k a (files (m fs)))
  | Raised _ => files (m fs)
  end.
Proof. unfold bind. by destruct (result (m fs)). Qed.

(** A bind that returns ran both of its parts to their return. *)
Lemma bind_returned {A B} (m : M A) (k : A → M B) fs b :
  result (bind m k fs) = Returned b →
  ∃ a, result (m fs) = Returned a ∧ result (k a (files (m fs))) = Returned b.
Proof. rewrite bind_result. destruct (result (m fs)); [eauto|done]. Qed.

(** ** Default entrypoint: [_DetectDefaultEntrypoint] *)

(** C5. The default entrypoint follows a fixed order of priority: a
    Procfile gives the foreman command; otherwise puma among the gems gives
    the puma command; otherwise unicorn gives the unicorn command; otherwise
    a config.ru file gives the rackup command; otherwise the empty string.
    The detection always returns and leaves the tree as it was. *)
Theorem C5_default_entrypoint_priority
    (path : string) (gems : list string) (fs : filesystem) :
  let r := _DetectDefaultEntrypoint path gems fs in
  let procfile := is_file fs (Py.os_path_join path "Procfile") in
  let configru := is_file fs (Py.os_path_join path "config.ru") in
  files r = fs
  ∧ (procfile = true → result r = Returned ENTRYPOINT_FOREMAN)
  ∧ (procfile = false → "puma" ∈ gems → result r = Returned ENTRYPOINT_PUMA)
  ∧ (procfile = false → "puma" ∉ gems → "unicorn" ∈ gems →
       result r = Returned ENTRYPOINT_UNICORN)
  ∧ (procfile = false → "puma" ∉ gems → "unicorn" ∉ gems →
       configru = true → result r = Returned ENTRYPOINT_RACKUP)
  ∧ (procfile = false → "puma" ∉ gems → "unicorn" ∉ gems →
       configru = false → result r = Returned "").
Proof.
  intros r procfile configru. subst r.
  unfold _DetectDefaultEntrypoint.
  rewrite bind_files, !bind_result. cbn [os_path_isfile result files].
  fold procfile. destruct procfile.
  - split_and!; try done.
  - repeat case_bool_decide; cbn [ret result files].
    + split_and!; done.
    + split_and!; done.
    + rewrite bind_files, bind_result. cbn [os_path_isfile result files].
      fold configru. destruct configru; split_and!; done.
Qed.

(** The scenario of the spec: puma in the bundle, no Procfile. *)
Example default_entrypoint_puma :
  result (_DetectDefaultEntrypoint "app" ["rake"; "puma"]
            {[ "app/Gemfile" := File "" ]})
  = Returned "bundle exec puma -p 8080 -e deployment".
Proof. vm_compute. reflexivity. Qed.

(** ** Choice of the entrypoint: [_ChooseEntrypoint] *)

Lemma non_interactive_message_head env :
  ∃ rest, non_interactive_message env = String "T"%char rest.
Proof. unfold non_interactive_message. cbn. eauto. Qed.

Lemma ChooseEntrypoint_non_interactive env default_entrypoint ai fs :
  CanPrompt env = false →
  _ChooseEntrypoint env default_entrypoint ai fs
  = MkRun (Raised (RubyConfigError (non_interactive_message env))) fs
          [EvCanPrompt].
Proof.
  intros Hcan. unfold _ChooseEntrypoint, bind, console_io_CanPrompt.
  cbn [result files events]. rewrite Hcan. reflexivity.
Qed.

(** What an interactive choice comes to: the stripped answer, or the default
    when the answer is blank, or the error when both are. *)
Lemma ChooseEntrypoint_interactive env default_entrypoint ai fs :
  CanPrompt env = true →
  let prompt := if Py.truthy default_entrypoint
                then prompt_with_default default_entrypoint
                else prompt_without_default in
  let answer := Py.strip (PromptResponse env prompt) in
  result (_ChooseEntrypoint env default_entrypoint ai fs) =
    if Py.truthy answer then Returned answer
    else if Py.truthy default_entrypoint then Returned default_entrypoint
    else Raised (RubyConfigError "Entrypoint command is required.").
Proof.
  intros Hcan prompt answer. subst answer prompt.
  unfold _ChooseEntrypoint, bind, console_io_CanPrompt.
  cbn [result files events]. rewrite Hcan.
  destruct (Py.truthy default_entrypoint); cbn [console_io_PromptResponse result files];
    destruct (Py.truthy (Py.strip _)); cbn [negb ret raise result files];
    destruct ai; reflexivity.
Qed.

Lemma ChooseEntrypoint_returned_truthy env default_entrypoint ai fs e :
  result (_ChooseEntrypoint env default_entrypoint ai fs) = Returned e →
  Py.truthy e = true.
Proof.
  destruct (CanPrompt env) eqn:Hcan.
  - rewrite ChooseEntrypoint_interactive by done.
    destruct (Py.truthy (Py.strip _)) eqn:Hans; [congruence|].
    destruct (Py.truthy default_entrypoint) eqn:Hdef; congruence.
  - rewrite ChooseEntrypoint_non_interactive by done. discriminate.
Qed.

(** C1 (amended). Entrypoint resolution raises the non-interactive error
    exactly when prompting is unavailable, whether or not a default
    entrypoint was computed: without a prompt it asks nothing, changes
    nothing and never returns, so a computed default is not used. A default
    is returned only in an interactive run, for a blank answer. *)
Theorem C1_non_interactive_raises_whatever_default
    (env : Collaborators) (default_entrypoint : string)
    (ai : option AppInfoExternal) (fs : filesystem) :
  let r := _ChooseEntrypoint env default_entrypoint ai fs in
  (result r = Raised (RubyConfigError (non_interactive_message env))
   ↔ CanPrompt env = false)
  ∧ (CanPrompt env = false → files r = fs ∧ events r = [EvCanPrompt])
  ∧ (result r = Returned default_entrypoint → CanPrompt env = true).
Proof.
  intros r. subst r. destruct (CanPrompt env) eqn:Hcan.
  - split_and!; [|done|done]. split; [|done].
    rewrite ChooseEntrypoint_interactive by done.
    destruct (non_interactive_message_head env) as [rest ->].
    repeat case_match; discriminate.
  - rewrite ChooseEntrypoint_non_interactive by done. cbn.
    split_and!; done.
Qed.

(** C1, counterexample to the claim as stated: in a run that cannot prompt,
    with puma in the bundle and no Procfile, a default entrypoint is
    computed, and resolution raises all the same; so does the fingerprint
    as a whole. *)
Lemma C1_counterexample_default_not_used :
  CanPrompt batch_env = false
  ∧ result (_DetectDefaultEntrypoint "app" ["puma"; "rack"] gemfile_tree)
    = Returned ENTRYPOINT_PUMA
  ∧ result (_ChooseEntrypoint batch_env ENTRYPOINT_PUMA None gemfile_tree)
    = Raised (RubyConfigError (non_interactive_message batch_env))
  ∧ result (Fingerprint batch_env "app" no_appinfo gemfile_tree)
    = Raised (RubyConfigError (non_interactive_message batch_env)).
Proof. vm_compute. split_and!; reflexivity. Qed.

Lemma C1_witness_batch_run :
  let r := _ChooseEntrypoint batch_env ENTRYPOINT_PUMA None gemfile_tree in
  files r = gemfile_tree ∧ events r = [EvCanPrompt].
Proof.
  apply (C1_non_interactive_raises_whatever_default
           batch_env ENTRYPOINT_PUMA None gemfile_tree).
  reflexivity.
Defined.

(** ** The fingerprint as a whole *)

Lemma configured_entrypoint_Some params ai e :
  appinfo params = Some ai → appinfo_entrypoint ai = Some e → e ≠ "" →
  configured_entrypoint (appinfo params) = Some e.
Proof.
  intros -> He Hne. unfold configured_entrypoint. rewrite He.
  destruct e; [done|reflexivity].
Qed.

Lemma configured_entrypoint_truthy ai e :
  configured_entrypoint ai = Some e → Py.truthy e = true.
Proof.
  unfold configured_entrypoint. destruct ai as [a|]; [|done].
  destruct (Py.truthy_opt (appinfo_entrypoint a)) eqn:Ht; [|done].
  intros He. rewrite He in Ht. exact Ht.
Qed.

(** A fingerprint that yields a configurator took its entrypoint from the
    app.yaml, or else from a choice that returned. *)
Lemma Fingerprint_returned env path params fs cfg :
  result (Fingerprint env path params fs) = Returned (Some cfg) →
  configured_entrypoint (appinfo params) = Some (entrypoint cfg)
  ∨ (configured_entrypoint (appinfo params) = None
     ∧ ∃ d fs', result (_ChooseEntrypoint env d (appinfo params) fs')
                = Returned (entrypoint cfg)).
Proof.
  unfold Fingerprint. intros H.
  apply bind_returned in H as (is_ruby & _ & H).
  destruct is_ruby; cbn [negb] in H; [|discriminate].
  apply bind_returned in H as (bundler_available & _ & H).
  apply bind_returned in H as (gems & _ & H).
  apply bind_returned in H as (version & _ & H).
  apply bind_returned in H as (e & He & H).
  injection H as <-. cbn [entrypoint].
  destruct (configured_entrypoint (appinfo params)) as [e'|].
  - left. by injection He as ->.
  - right. split; [done|].
    apply bind_returned in He as (d & _ & He). eauto.
Qed.

(** C7. A configurator that the fingerprint returns has a non-empty
    entrypoint. The ways to an empty one end in an error: a blank answer
    when there is no default, and any choice without a prompt. *)
Theorem C7_entrypoint_never_empty
    (env : Collaborators) (path : string) (params : Params)
    (fs : filesystem) :
  (∀ cfg, result (Fingerprint env path params fs) = Returned (Some cfg) →
          entrypoint cfg ≠ "")
  ∧ (∀ ai fs',
       CanPrompt env = true →
       Py.strip (PromptResponse env prompt_without_default) = "" →
       result (_ChooseEntrypoint env "" ai fs')
       = Raised (RubyConfigError "Entrypoint command is required."))
  ∧ (∀ d ai fs',
       CanPrompt env = false →
       result (_ChooseEntrypoint env d ai fs')
       = Raised (RubyConfigError (non_interactive_message env))).
Proof.
  split_and!.
  - intros cfg Hrun. assert (Py.truthy (entrypoint cfg) = true) as Ht.
    { apply Fingerprint_returned in Hrun as [Hcfg|(_ & d & fs' & Hch)].
      - by eapply configured_entrypoint_truthy.
      - by eapply ChooseEntrypoint_returned_truthy. }
    intros Hempty. rewrite Hempty in Ht. discriminate.
  - intros ai fs' Hcan Hblank.
    rewrite ChooseEntrypoint_interactive by done. cbn [Py.truthy].
    by rewrite Hblank.
  - intros d ai fs' Hcan. by rewrite ChooseEntrypoint_non_interactive.
Qed.

Lemma C7_witness_rackup :
  ∃ cfg, result (Fingerprint terminal_env "app" no_appinfo rack_tree)
         = Returned (Some cfg)
         ∧ entrypoint cfg = ENTRYPOINT_RACKUP ∧ entrypoint cfg ≠ "".
Proof.
  eexists. split; [vm_compute; reflexivity|]. split; [reflexivity|].
  apply (proj1 (C7_entrypoint_never_empty
                  terminal_env "app" no_appinfo rack_tree)).
  vm_compute. reflexivity.
Defined.

(** ** What a run can emit *)

Section Emits.
Context {P : event → Prop}.

Lemma emits_ret {A} (a : A) : emits P (ret a).
Proof. intros fs. constructor. Qed.

Lemma emits_raise {A} (e : error) : emits P (raise (A:=A) e).
Proof. intros fs. constructor. Qed.

Lemma emits_bind {A B} (m : M A) (k : A → M B) :
  emits P m → (∀ a, emits P (k a)) → emits P (bind m k).
Proof.
  intros Hm Hk fs. rewrite bind_events.
  destruct (result (m fs)); [|apply Hm].
  apply Forall_app. split; [apply Hm|apply Hk].
Qed.

Lemma emits_one {A} (m : M A) ev :
  (∀ fs, events (m fs) = [ev]) → P ev → emits P m.
Proof. intros Hev HP fs. rewrite Hev. by repeat constructor. Qed.

Lemma emits_log_info msg : P (EvLogInfo msg) → emits P (log_info msg).
Proof. by apply emits_one. Qed.

Lemma emits_log_status_Print msg :
  P (EvStatusPrint msg) → emits P (log_status_Print msg).
Proof. by apply emits_one. Qed.

Lemma emits_isfile path : P (EvIsFile path) → emits P (os_path_isfile path).
Proof. by apply emits_one. Qed.

Lemma emits_exists path : P (EvExists path) → emits P (os_path_exists path).
Proof. by apply emits_one. Qed.

Lemma emits_read_file path : P (EvRead path) → emits P (read_file path).
Proof.
  apply emits_one. intros fs. unfold read_file.
  by destruct (fs !! path) as [[]|].
Qed.

Lemma emits_write_file path c :
  P (EvWrite path c) → emits P (write_file path c).
Proof. by apply emits_one. Qed.

Lemma emits_RunSubprocess env cmd :
  P (EvPopen cmd) → emits P (_RunSubprocess env cmd).
Proof.
  apply emits_one. intros fs. unfold _RunSubprocess.
  destruct (Popen env cmd fs) as [fs' [status out]]. by case_decide.
Qed.

Lemma emits_SubprocessSucceeds env cmd :
  P (EvPopen cmd) → emits P (_SubprocessSucceeds env cmd).
Proof.
  apply emits_one. intros fs. unfold _SubprocessSucceeds.
  by destruct (Popen env cmd fs) as [fs' [status out]].
Qed.

Lemma emits_CanPrompt env : P EvCanPrompt → emits P (console_io_CanPrompt env).
Proof. by apply emits_one. Qed.

Lemma emits_PromptContinue env message prompt_string :
  P (EvPromptContinue message prompt_string) →
  emits P (console_io_PromptContinue env message prompt_string).
Proof. by apply emits_one. Qed.

Lemma emits_PromptResponse env message :
  P (EvPromptResponse message) →
  emits P (console_io_PromptResponse env message).
Proof. by apply emits_one. Qed.

End Emits.

Create HintDb emits discriminated.
#[export] Hint Resolve emits_ret emits_raise emits_log_info
  emits_log_status_Print emits_isfile emits_exists emits_read_file
  emits_write_file emits_RunSubprocess emits_SubprocessSucceeds
  emits_CanPrompt emits_PromptContinue emits_PromptResponse : emits.

(** Goes through a computation bind by bind and branch by branch; what is
    left are the conditions on single events. *)
Ltac emits_step :=
  lazymatch goal with
  | |- emits _ (bind _ _) => apply emits_bind; [|intros ?]
  | |- emits _ (if ?b then _ else _) => destruct b
  | |- emits _ (match ?o with Some _ => _ | None => _ end) => destruct o
  | |- emits _ (match ?l with [] => _ | _ :: _ => _ end) => destruct l
  | |- emits _ _ => solve [auto with emits]
  end.
Ltac emits_walk := repeat emits_step.

(** Joining a directory with two different relative names gives two
    different paths. *)
Lemma os_path_join_relative_inj path a b :
  Py.startswith "/" a = false → Py.startswith "/" b = false →
  Py.os_path_join path a = Py.os_path_join path b → a = b.
Proof.
  unfold Py.os_path_join. intros -> ->.
  destruct (negb (Py.truthy path) || Py.ends_with_slash path).
  - apply (inj (String.app path)).
  - intros H. apply (inj (String.app path)) in H.
    by apply (inj (String.app "/")) in H.
Qed.

Lemma entrypoint_event_other_file path name :
  Py.startswith "/" name = false → name ≠ "Procfile" → name ≠ "config.ru" →
  entrypoint_event path (EvIsFile (Py.os_path_join path name)) = false.
Proof.
  intros Hrel H1 H2. cbn [entrypoint_event].
  apply orb_false_iff. split; apply bool_decide_eq_false; intros Heq;
    apply os_path_join_relative_inj in Heq; done.
Qed.

#[export] Hint Extern 1 (entrypoint_event _ _ = false) =>
  first [ reflexivity
        | apply entrypoint_event_other_file;
          [reflexivity | discriminate | discriminate] ] : emits.
#[export] Hint Extern 1 (console_event _ = false) => reflexivity : emits.

Section Probes.
Variable env : Collaborators.
Variable path : string.

(** The probes before entrypoint resolution take no step of it. *)
Lemma CheckForRubyRuntime_no_entrypoint_event ai :
  emits (λ ev, entrypoint_event path ev = false)
        (_CheckForRubyRuntime env path ai).
Proof. unfold _CheckForRubyRuntime. emits_walk. Qed.

Lemma CheckEnvironment_no_entrypoint_event :
  emits (λ ev, entrypoint_event path ev = false) (_CheckEnvironment env path).
Proof. unfold _CheckEnvironment. emits_walk. Qed.

Lemma DetectGems_no_entrypoint_event b :
  emits (λ ev, entrypoint_event path ev = false) (_DetectGems env b).
Proof. unfold _DetectGems. emits_walk. Qed.

Lemma ruby_version_file_no_entrypoint_event :
  emits (λ ev, entrypoint_event path ev = false) (ruby_version_file path).
Proof. unfold ruby_version_file, _ReadFile. emits_walk. Qed.

Lemma DetectRubyInterpreter_no_entrypoint_event b :
  emits (λ ev, entrypoint_event path ev = false)
        (_DetectRubyInterpreter env path b).
Proof.
  pose proof ruby_version_file_no_entrypoint_event.
  unfold _DetectRubyInterpreter. emits_walk.
Qed.

(** Apart from the candidate check, the probes do not use the console. *)
Lemma CheckEnvironment_no_console :
  emits (λ ev, console_event ev = false) (_CheckEnvironment env path).
Proof. unfold _CheckEnvironment. emits_walk. Qed.

Lemma DetectGems_no_console b :
  emits (λ ev, console_event ev = false) (_DetectGems env b).
Proof. unfold _DetectGems. emits_walk. Qed.

Lemma DetectRubyInterpreter_no_console b :
  emits (λ ev, console_event ev = false) (_DetectRubyInterpreter env path b).
Proof.
  unfold _DetectRubyInterpreter, ruby_version_file, _ReadFile. emits_walk.
Qed.

Lemma CheckForRubyRuntime_declared_ruby ai :
  GetEffectiveRuntime ai = "ruby" →
  _CheckForRubyRuntime env path (Some ai) = ret true.
Proof.
  intros Hruby. unfold _CheckForRubyRuntime.
  by rewrite bool_decide_eq_true_2.
Qed.

End Probes.

#[export] Hint Resolve CheckForRubyRuntime_no_entrypoint_event
  CheckEnvironment_no_entrypoint_event DetectGems_no_entrypoint_event
  DetectRubyInterpreter_no_entrypoint_event CheckEnvironment_no_console
  DetectGems_no_console DetectRubyInterpreter_no_console : emits.

(** C4 (amended). When the app.yaml names a non-empty entrypoint, the
    configurator that the fingerprint returns has exactly that entrypoint,
    and no step of entrypoint resolution is taken: no probe of the default
    entrypoint and no question for the entrypoint. The yes/no confirmation
    of the candidate check is a different matter: it is skipped only when
    the app.yaml declares the ruby runtime, and then the console is not used
    at all. *)
Theorem C4_configured_entrypoint_verbatim
    (env : Collaborators) (path : string) (params : Params) (fs : filesystem)
    (ai : AppInfoExternal) (e : string) :
  appinfo params = Some ai → appinfo_entrypoint ai = Some e → e ≠ "" →
  let r := Fingerprint env path params fs in
  (∀ cfg, result r = Returned (Some cfg) → entrypoint cfg = e)
  ∧ Forall (λ ev, entrypoint_event path ev = false) (events r)
  ∧ (GetEffectiveRuntime ai = "ruby" →
     Forall (λ ev, console_event ev = false) (events r)).
Proof.
  intros Hai He Hne r. subst r.
  pose proof (configured_entrypoint_Some params ai e Hai He Hne) as Hcfg.
  split_and!.
  - intros cfg [Hc|[Hc _]]%Fingerprint_returned; congruence.
  - revert fs. change (emits (λ ev, entrypoint_event path ev = false)
                             (Fingerprint env path params)).
    unfold Fingerprint. rewrite Hcfg. emits_walk.
  - intros Hruby. revert fs.
    change (emits (λ ev, console_event ev = false)
                  (Fingerprint env path params)).
    unfold Fingerprint. rewrite Hcfg, Hai.
    rewrite CheckForRubyRuntime_declared_ruby by done. emits_walk.
Qed.

Lemma C4_witness_declared_ruby :
  let r := Fingerprint terminal_env "app" ruby_appinfo gemfile_tree in
  (∃ cfg, result r = Returned (Some cfg))
  ∧ (∀ cfg, result r = Returned (Some cfg) →
            entrypoint cfg = "bundle exec rackup")
  ∧ Forall (λ ev, entrypoint_event "app" ev = false) (events r)
  ∧ (("ruby" : string) = "ruby" →
     Forall (λ ev, console_event ev = false) (events r)).
Proof.
  split; [eexists; vm_compute; reflexivity|].
  apply (C4_configured_entrypoint_verbatim terminal_env "app" ruby_appinfo
           gemfile_tree
           {| GetEffectiveRuntime := "ruby";
              appinfo_entrypoint := Some "bundle exec rackup" |}
           "bundle exec rackup").
  - reflexivity.
  - reflexivity.
  - discriminate.
Defined.

(** C4, counterexample to the claim as stated: the app.yaml names an
    entrypoint and declares the custom runtime; on a terminal the
    fingerprint asks for confirmation before it returns the configurator
    with that entrypoint, so the console is used. *)
Lemma C4_counterexample_confirmation_prompt :
  let r := Fingerprint terminal_env "app" custom_appinfo gemfile_tree in
  (∃ cfg, result r = Returned (Some cfg)
          ∧ entrypoint cfg = "bundle exec rackup")
  ∧ events r =
    [ EvLogInfo "Checking for Ruby.";
      EvIsFile "app/Gemfile";
      EvCanPrompt;
      EvPromptContinue "This looks like a Ruby application."
                       "Proceed to configure deployment for Ruby?";
      EvIsFile "app/Gemfile";
      EvIsFile "app/Gemfile.lock";
      EvPopen "bundle version";
      EvStatusPrint bundler_missing_notice;
      EvIsFile "app/.ruby-version";
      EvStatusPrint default_interpreter_notice ]
  ∧ existsb console_event (events r) = true.
Proof.
  cbv zeta. split_and!.
  - eexists. split; [vm_compute; reflexivity|reflexivity].
  - vm_compute. reflexivity.
  - vm_compute. reflexivity.
Qed.

(** ** Environment check: [_CheckEnvironment] *)

Lemma SubprocessSucceeds_run env cmd fs :
  _SubprocessSucceeds env cmd fs
  = MkRun (Returned (bool_decide (exit_status env cmd fs = 0%Z)))
          (tree_after env cmd fs) [EvPopen cmd].
Proof.
  unfold _SubprocessSucceeds, exit_status, tree_after.
  by destruct (Popen env cmd fs) as [fs' [status out]].
Qed.

(** The outcome of the check, case by case. *)
Lemma CheckEnvironment_result env path fs :
  result (_CheckEnvironment env path fs) =
  if is_file fs (Py.os_path_join path "Gemfile") then
    if bool_decide (exit_status env "bundle version" fs = 0%Z) then
      if bool_decide (exit_status env "bundle check"
                        (tree_after env "bundle version" fs) = 0%Z)
      then Returned true
      else Raised (StaleBundleError
                     ("Your bundle is not up-to-date. "
                      +:+ "Install missing gems with 'bundle install'."))
    else Returned false
  else Raised (MissingGemfileError "Gemfile is required for Ruby runtime.").
Proof.
  unfold _CheckEnvironment. rewrite bind_result.
  cbn [os_path_isfile result files].
  destruct (is_file fs _); cbn [negb]; [|done].
  rewrite bind_result. cbn [os_path_isfile result files].
  rewrite bind_result, SubprocessSucceeds_run. cbn [result files].
  case_bool_decide as Hv; rewrite bind_result.
  - rewrite bind_result, SubprocessSucceeds_run. cbn [result files].
    case_bool_decide as Hc; cbn [negb]; [|done].
    by destruct (is_file _ _).
  - done.
Qed.

Lemma CheckEnvironment_warns_without_bundler env path fs :
  is_file fs (Py.os_path_join path "Gemfile") = true →
  ¬ bundler_works env fs →
  events (_CheckEnvironment env path fs)
  = [ EvIsFile (Py.os_path_join path "Gemfile");
      EvIsFile (Py.os_path_join path "Gemfile.lock");
      EvPopen "bundle version";
      EvStatusPrint bundler_missing_notice ].
Proof.
  intros Hgem Hnone. unfold _CheckEnvironment, bundler_works in *.
  rewrite bind_events. cbn [os_path_isfile result files events].
  rewrite Hgem. cbn [negb].
  rewrite bind_events. cbn [os_path_isfile result files events].
  rewrite bind_events, SubprocessSucceeds_run. cbn [result files events].
  rewrite bool_decide_eq_false_2 by done.
  rewrite bind_events. reflexivity.
Qed.

(** C6. The environment check raises the missing-Gemfile error exactly
    when the Gemfile is absent; that test comes first. With the Gemfile in
    place, it raises the stale-bundle error exactly when bundler is
    available and its check fails, and when bundler is unavailable it does
    not raise: it returns false, prints the notice about bundler, and the
    detection of gems that follows returns the empty list. *)
Theorem C6_environment_check
    (env : Collaborators) (path : string) (fs : filesystem) :
  let r := _CheckEnvironment env path fs in
  let gemfile := is_file fs (Py.os_path_join path "Gemfile") in
  ((∃ msg, result r = Raised (MissingGemfileError msg)) ↔ gemfile = false)
  ∧ ((∃ msg, result r = Raised (StaleBundleError msg))
     ↔ gemfile = true ∧ bundler_works env fs ∧ bundle_check_fails env fs)
  ∧ (gemfile = true → ¬ bundler_works env fs →
     result r = Returned false
     ∧ EvStatusPrint bundler_missing_notice ∈ events r
     ∧ ∀ fs', result (_DetectGems env false fs')
              = Returned []).
Proof.
  intros r gemfile. subst r.
  assert (gemfile = true → ¬ bundler_works env fs →
          events (_CheckEnvironment env path fs)
          = [ EvIsFile (Py.os_path_join path "Gemfile");
              EvIsFile (Py.os_path_join path "Gemfile.lock");
              EvPopen "bundle version";
              EvStatusPrint bundler_missing_notice ]) as Hev
    by apply CheckEnvironment_warns_without_bundler.
  rewrite CheckEnvironment_result. fold gemfile.
  unfold bundler_works, bundle_check_fails in *.
  destruct gemfile.
  - case_bool_decide as Hv; [case_bool_decide as Hc|].
    + split_and!; [split; [intros [? [=]]|done] | | done].
      split; [intros [? [=]]|]. by intros (_ & _ & ?).
    + split_and!; [split; [intros [? [=]]|done] | | done].
      split; [done|]. eauto.
    + split_and!; [split; [intros [? [=]]|done] | |].
      * split; [intros [? [=]]|]. by intros (_ & ? & _).
      * intros _ _. rewrite Hev by done. split_and!; [done| |done].
        rewrite !elem_of_cons. auto.
  - split_and!; [split; [done|eauto] | | done].
    split; [intros [? [=]]|]. by intros ([=] & _).
Qed.

Lemma C6_witness_no_bundler :
  let r := _CheckEnvironment terminal_env "app" gemfile_tree in
  result r = Returned false
  ∧ EvStatusPrint bundler_missing_notice ∈ events r
  ∧ ∀ fs', result (_DetectGems terminal_env false fs') = Returned [].
Proof.
  apply (C6_environment_check terminal_env "app" gemfile_tree).
  - reflexivity.
  - vm_compute. discriminate.
Defined.

(** The scenario of the spec: a Gemfile, no Gemfile.lock, no bundler. The
    fingerprint goes on with no gems, no packages and the default
    interpreter, and prints the notice. *)
Example fingerprint_without_bundler :
  let r := Fingerprint terminal_env "app" no_appinfo rack_tree in
  result r = Returned (Some {| root := "app"; params := no_appinfo;
                               ruby_version := None;
                               entrypoint := ENTRYPOINT_RACKUP;
                               packages := [] |})
  ∧ EvStatusPrint bundler_missing_notice ∈ events r.
Proof.
  cbv zeta. split; [vm_compute; reflexivity|].
  apply list_elem_of_In. vm_compute. tauto.
Qed.

(** ** Interpreter version: [_DetectRubyInterpreter] *)

Lemma RunSubprocess_run env cmd fs :
  _RunSubprocess env cmd fs =
  if decide (exit_status env cmd fs ≠ 0%Z)
  then MkRun (Raised (RubyConfigError
                        ("Unable to run script: [" +:+ cmd +:+ "]")))
             (tree_after env cmd fs) [EvPopen cmd]
  else MkRun (Returned (stdout_of env cmd fs)) (tree_after env cmd fs)
             [EvPopen cmd].
Proof.
  unfold _RunSubprocess, exit_status, tree_after, stdout_of.
  by destruct (Popen env cmd fs) as [fs' [status out]].
Qed.

(** The fallback reads the file and strips it; the table is not consulted. *)
Lemma ruby_version_file_result path fs :
  result (ruby_version_file path fs) =
  match fs !! Py.os_path_join path ".ruby-version" with
  | Some (File c) => if Py.truthy c then Returned (Some (Py.strip c))
                     else Returned None
  | Some Unreadable => Raised (IOError (Py.os_path_join path ".ruby-version"))
  | _ => Returned None
  end
  ∧ files (ruby_version_file path fs) = fs.
Proof.
  unfold ruby_version_file, _ReadFile, bind, os_path_isfile, read_file,
    is_file.
  destruct (fs !! Py.os_path_join path ".ruby-version") as [[c| |]|] eqn:E;
    repeat (cbn [negb ret result files events]; rewrite ?E); [|done..].
  by destruct c.
Qed.

(** The normalisation against the table: a version in the table becomes its
    patch level, any other version is unchanged. *)
Lemma rbenv_version_spec v :
  (∀ p, RUBY_VERSION_MAP !! v = Some p → rbenv_version v = p)
  ∧ (RUBY_VERSION_MAP !! v = None → rbenv_version v = v).
Proof. unfold rbenv_version. split; [intros p ->|intros ->]; done. Qed.

Lemma DetectRubyInterpreter_from_Gemfile env path fs v :
  exit_status env "bundle platform --ruby" fs = 0%Z →
  match_No (stdout_of env "bundle platform --ruby" fs) = false →
  match_ruby_version (stdout_of env "bundle platform --ruby" fs) = Some v →
  result (_DetectRubyInterpreter env path true fs)
  = Returned (Some (rbenv_version v)).
Proof.
  intros Hexit Hno Hv. unfold _DetectRubyInterpreter.
  rewrite bind_result, RunSubprocess_run.
  case_decide; [done|]. cbn [result files]. rewrite Hno, Hv. cbn [negb].
  by rewrite bind_result.
Qed.

(** Where a version comes from: the Gemfile, through the table; or the
    .ruby-version file, stripped. *)
Lemma DetectRubyInterpreter_returned env path b fs r :
  result (_DetectRubyInterpreter env path b fs) = Returned (Some r) →
  (∃ v, b = true
        ∧ match_ruby_version (stdout_of env "bundle platform --ruby" fs)
          = Some v
        ∧ r = rbenv_version v)
  ∨ (∃ c, files (_DetectRubyInterpreter env path b fs)
            !! Py.os_path_join path ".ruby-version" = Some (File c)
          ∧ r = Py.strip c).
Proof.
  assert (∀ fs', result (ruby_version_file path fs') = Returned (Some r) →
                 ∃ c, files (ruby_version_file path fs')
                        !! Py.os_path_join path ".ruby-version"
                      = Some (File c) ∧ r = Py.strip c) as Hfile.
  { intros fs'. destruct (ruby_version_file_result path fs') as [-> ->].
    destruct (fs' !! _) as [[c| |]|]; [|done..].
    destruct (Py.truthy c); [|done]. intros [= <-]. eauto. }
  unfold _DetectRubyInterpreter. destruct b; [|by right; apply Hfile].
  rewrite bind_result, bind_files, RunSubprocess_run.
  case_decide; [done|]. cbn [result files].
  destruct (match_No _); cbn [negb]; [by right; apply Hfile|].
  destruct (match_ruby_version _) as [v|].
  - rewrite bind_result. cbn [log_status_Print emit ret result files].
    intros [= <-]. left. eauto.
  - rewrite bind_result, bind_files. cbn [log_status_Print emit result files].
    right. by apply Hfile.
Qed.

(** C2 (amended). A version that comes from the Gemfile (the answer of
    bundler to [bundle platform --ruby]) is normalised against the table: a
    version in the table is replaced by its patch level, any other passes
    unchanged. A version that comes from the .ruby-version file is the
    stripped content of the file, as it is: the table is not consulted on
    that path. Every version that the detection returns comes from one of
    the two. *)
Theorem C2_version_normalised_from_Gemfile
    (env : Collaborators) (path : string) (b : bool) (fs : filesystem)
    (r : string) :
  result (_DetectRubyInterpreter env path b fs) = Returned (Some r) →
  (∃ v, b = true
        ∧ match_ruby_version (stdout_of env "bundle platform --ruby" fs)
          = Some v
        ∧ r = rbenv_version v
        ∧ (∀ p, RUBY_VERSION_MAP !! v = Some p → r = p)
        ∧ (RUBY_VERSION_MAP !! v = None → r = v))
  ∨ (∃ c, files (_DetectRubyInterpreter env path b fs)
            !! Py.os_path_join path ".ruby-version" = Some (File c)
          ∧ r = Py.strip c).
Proof.
  intros [(v & Hb & Hv & ->)|Hfile]%DetectRubyInterpreter_returned.
  - left. exists v. destruct (rbenv_version_spec v) as [Hin Hout].
    split_and!; auto.
  - by right.
Qed.

(** The scenario of the spec: bundler reports ruby 2.0.0p645, and the
    version becomes the patch level that the table has for 2.0.0. *)
Lemma C2_witness_gemfile_version :
  (∃ v, true = true
        ∧ match_ruby_version
            (stdout_of gemfile_ruby_env "bundle platform --ruby" gemfile_tree)
          = Some v
        ∧ "2.0.0-p648" = rbenv_version v
        ∧ (∀ p, RUBY_VERSION_MAP !! v = Some p → "2.0.0-p648" = p)
        ∧ (RUBY_VERSION_MAP !! v = None → "2.0.0-p648" = v))
  ∨ (∃ c, files (_DetectRubyInterpreter gemfile_ruby_env "app" true
                   gemfile_tree)
            !! Py.os_path_join "app" ".ruby-version" = Some (File c)
          ∧ "2.0.0-p648" = Py.strip c).
Proof.
  apply (C2_version_normalised_from_Gemfile gemfile_ruby_env "app" true
           gemfile_tree "2.0.0-p648").
  vm_compute. reflexivity.
Defined.

(** C2, counterexample to the claim as stated: without bundler the version
    comes from .ruby-version; the file says 2.0.0, the table maps 2.0.0 to
    2.0.0-p648, and the detection returns 2.0.0, which the configurator of
    the fingerprint then carries. *)
Lemma C2_counterexample_ruby_version_file :
  RUBY_VERSION_MAP !! "2.0.0" = Some "2.0.0-p648"
  ∧ result (_DetectRubyInterpreter terminal_env "app" false pinned_tree)
    = Returned (Some "2.0.0")
  ∧ ∃ cfg, result (Fingerprint terminal_env "app" no_appinfo pinned_tree)
           = Returned (Some cfg)
           ∧ ruby_version cfg = Some "2.0.0".
Proof.
  split_and!.
  - vm_compute. reflexivity.
  - vm_compute. reflexivity.
  - eexists. split; [vm_compute; reflexivity|reflexivity].
Qed.

(** ** Guarded writes: [WriteTo], [GenerateConfigs], [GenerateConfigData] *)

Lemma WriteTo_run f dest notify_fn fs :
  let path := Py.os_path_join dest (filename f) in
  WriteTo f dest notify_fn fs =
  match fs !! path with
  | Some _ => MkRun (Returned false) fs [EvExists path]
  | None => MkRun (Returned true) (<[path := File (contents f)]> fs)
                  [EvExists path; EvWrite path (contents f)]
  end.
Proof.
  intros path. unfold WriteTo, bind, os_path_exists, path_exists.
  cbn [result files events]. fold path.
  destruct (fs !! path) as [n|] eqn:Hp.
  - rewrite bool_decide_eq_true_2 by eauto. reflexivity.
  - rewrite bool_decide_eq_false_2 by (by intros [? ?]).
    reflexivity.
Qed.

Lemma keeps_files_ret {A} (a : A) : keeps_files (ret a).
Proof. by intros fs p n. Qed.

Lemma keeps_files_bind {A B} (m : M A) (k : A → M B) :
  keeps_files m → (∀ a, keeps_files (k a)) → keeps_files (bind m k).
Proof.
  intros Hm Hk fs p n Hp. rewrite bind_files.
  destruct (result (m fs)); [apply Hk|]; by apply Hm.
Qed.

Lemma keeps_files_emit ev : keeps_files (emit ev).
Proof. by intros fs p n. Qed.

Lemma keeps_files_notify params msg : keeps_files (notify params msg).
Proof. unfold notify. destruct (deploy params); apply keeps_files_emit. Qed.

Lemma keeps_files_exists path : keeps_files (os_path_exists path).
Proof. by intros fs p n. Qed.

Lemma keeps_files_WriteTo f dest notify_fn : keeps_files (WriteTo f dest notify_fn).
Proof.
  intros fs p n Hp. rewrite WriteTo_run. cbv zeta.
  destruct (fs !! Py.os_path_join dest (filename f)) eqn:Hpath; [done|].
  cbn [files]. rewrite lookup_insert_ne; [done|]. congruence.
Qed.

Lemma keeps_files_mapM {A B} (f : A → M B) l :
  (∀ x, keeps_files (f x)) → keeps_files (mapM f l).
Proof.
  intros Hf. induction l as [|x l IH]; [apply keeps_files_ret|].
  cbn [mapM]. apply keeps_files_bind; [done|]. intros y.
  apply keeps_files_bind; [done|]. intros ys. apply keeps_files_ret.
Qed.

Lemma keeps_files_filterM {A} (p : A → M bool) l :
  (∀ x, keeps_files (p x)) → keeps_files (filterM p l).
Proof.
  intros Hp. induction l as [|x l IH]; [apply keeps_files_ret|].
  cbn [filterM]. apply keeps_files_bind; [done|]. intros y.
  apply keeps_files_bind; [done|]. intros ys. apply keeps_files_ret.
Qed.

Lemma keeps_files_GenerateConfigs env self :
  keeps_files (GenerateConfigs env self).
Proof.
  unfold GenerateConfigs. apply keeps_files_bind.
  - apply keeps_files_mapM. intros f. apply keeps_files_WriteTo.
  - intros created. apply keeps_files_bind; [|intros; apply keeps_files_ret].
    destruct (negb _); [apply keeps_files_notify|apply keeps_files_ret].
Qed.

Lemma keeps_files_GenerateConfigData env self :
  keeps_files (GenerateConfigData env self).
Proof.
  unfold GenerateConfigData. apply keeps_files_bind.
  - destruct (appinfo (params self)); [apply keeps_files_ret|].
    apply keeps_files_bind; [apply keeps_files_WriteTo|].
    intros; apply keeps_files_ret.
  - intros _. apply keeps_files_filterM. intros f.
    apply keeps_files_bind; [apply keeps_files_exists|].
    intros; apply keeps_files_ret.
Qed.

(** C8. A generated file is written only where no node of that name exists
    under the root: the write reports true exactly when the path was free,
    and a node that exists keeps its content. A second write under the same
    file name, whatever its content, finds the node, writes nothing, leaves
    the tree as it is and reports false; the two calls together write at
    most once. The same guard holds for the configurator: neither
    [GenerateConfigs] nor [GenerateConfigData] changes a node that exists. *)
Theorem C8_write_guarded_by_existence
    (f g : GeneratedFile) (dest : string) (notify1 notify2 : string → M unit)
    (fs : filesystem) :
  filename g = filename f →
  let path := Py.os_path_join dest (filename f) in
  let first := WriteTo f dest notify1 fs in
  let second := WriteTo g dest notify2 (files first) in
  (result first = Returned true ↔ fs !! path = None)
  ∧ (existsb write_event (events first) = true ↔ fs !! path = None)
  ∧ (∀ p n, fs !! p = Some n → files first !! p = Some n)
  ∧ result second = Returned false
  ∧ files second = files first
  ∧ existsb write_event (events second) = false
  ∧ (length (filter (λ ev, write_event ev = true)
                    (events first ++ events second)%list) ≤ 1)%nat
  ∧ (∀ env self p n, fs !! p = Some n →
       files (GenerateConfigs env self fs) !! p = Some n
       ∧ files (GenerateConfigData env self fs) !! p = Some n).
Proof.
  intros Hname path first second.
  assert (second = MkRun (Returned false) (files first) [EvExists path])
    as Hsecond.
  { subst second. rewrite WriteTo_run. cbv zeta. rewrite Hname. fold path.
    subst first. rewrite WriteTo_run. cbv zeta. fold path.
    destruct (fs !! path) as [n|] eqn:Hp; cbn [files].
    - by rewrite Hp.
    - by rewrite lookup_insert_eq. }
  rewrite Hsecond. cbn [result files events].
  split_and!; try done.
  - subst first. rewrite WriteTo_run. cbv zeta. fold path.
    destruct (fs !! path); cbn [result]; split; done.
  - subst first. rewrite WriteTo_run. cbv zeta. fold path.
    destruct (fs !! path); cbn [events existsb write_event orb]; split; done.
  - intros p n Hp. by apply keeps_files_WriteTo.
  - subst first. rewrite WriteTo_run. cbv zeta. fold path.
    destruct (fs !! path); vm_compute; lia.
  - intros env self p n Hp. split.
    + by apply keeps_files_GenerateConfigs.
    + by apply keeps_files_GenerateConfigData.
Qed.

(** A deploy into a tree with a Dockerfile written by hand: the Dockerfile
    stays as it was, and a second write of the generated one reports
    false. *)
Lemma C8_witness_customised_dockerfile :
  let f := _GenerateDockerfile batch_env deploy_configurator in
  let first := WriteTo f "app" log_info customised_tree in
  let second := WriteTo f "app" log_info (files first) in
  (result first = Returned true ↔ customised_tree !! "app/Dockerfile" = None)
  ∧ (existsb write_event (events first) = true
     ↔ customised_tree !! "app/Dockerfile" = None)
  ∧ (∀ p n, customised_tree !! p = Some n → files first !! p = Some n)
  ∧ result second = Returned false
  ∧ files second = files first
  ∧ existsb write_event (events second) = false
  ∧ (length (filter (λ ev, write_event ev = true)
                    (events first ++ events second)%list) ≤ 1)%nat
  ∧ (∀ env self p n, customised_tree !! p = Some n →
       files (GenerateConfigs env self customised_tree) !! p = Some n
       ∧ files (GenerateConfigData env self customised_tree) !! p = Some n).
Proof.
  apply (C8_write_guarded_by_existence
           (_GenerateDockerfile batch_env deploy_configurator)
           (_GenerateDockerfile batch_env deploy_configurator)
           "app" log_info log_info customised_tree).
  reflexivity.
Defined.

Example deploy_keeps_customised_dockerfile :
  let r := GenerateConfigs batch_env deploy_configurator customised_tree in
  result r = Returned true
  ∧ files r !! "app/Dockerfile" = Some (File "FROM ruby:2.3")
  ∧ files r !! "app/app.yaml"
    = Some (File (text [ "env: flex"; "runtime: ruby";
                         "entrypoint: bundle exec rackup" ])).
Proof. vm_compute. split_and!; reflexivity. Qed.

(** C10. With an app.yaml in place and neither the custom flag nor a
    deploy, [GenerateConfigs] has no file to write: it probes nothing,
    writes nothing, leaves the tree as it is, returns false, and still
    prints that all config files already exist. *)
Theorem C10_no_candidates_still_notifies
    (env : Collaborators) (self : RubyConfigurator) (fs : filesystem)
    (ai : AppInfoExternal) :
  appinfo (params self) = Some ai →
  custom (params self) = false → deploy (params self) = false →
  let r := GenerateConfigs env self fs in
  all_config_files env self = []
  ∧ result r = Returned false
  ∧ files r = fs
  ∧ events r
    = [EvStatusPrint "All config files already exist. No files generated."].
Proof.
  intros Hai Hcustom Hdeploy r.
  assert (all_config_files env self = []) as Hnone.
  { unfold all_config_files. by rewrite Hai, Hcustom, Hdeploy. }
  subst r. unfold GenerateConfigs. rewrite Hnone. cbn [mapM].
  unfold notify. rewrite Hdeploy.
  split_and!; reflexivity.
Qed.

Lemma C10_witness_app_yaml_present :
  let r := GenerateConfigs terminal_env rackup_configurator gemfile_tree in
  all_config_files terminal_env rackup_configurator = []
  ∧ result r = Returned false
  ∧ files r = gemfile_tree
  ∧ events r
    = [EvStatusPrint "All config files already exist. No files generated."].
Proof.
  apply (C10_no_candidates_still_notifies terminal_env rackup_configurator
           gemfile_tree
           {| GetEffectiveRuntime := "ruby";
              appinfo_entrypoint := Some "bundle exec rackup" |});
    reflexivity.
Defined.

(** ** Lines of a text *)

Lemma single_line_app s1 s2 :
  Py.single_line s1 = true → Py.single_line s2 = true →
  Py.single_line (s1 +:+ s2) = true.
Proof.
  intros H1 H2. induction s1 as [|a s1 IH]; [done|].
  cbn [Py.single_line] in H1. apply andb_true_iff in H1 as [Ha H1].
  change (String a s1 +:+ s2) with (String a (s1 +:+ s2)).
  cbn [Py.single_line]. rewrite Ha. by apply IH.
Qed.

(** A line without boundary, followed by a line feed, is the first line. *)
Lemma splitlines_line l rest :
  Py.single_line l = true →
  Py.splitlines (l +:+ Py.nl +:+ rest) = l :: Py.splitlines rest.
Proof.
  intros Hl. induction l as [|a l IH].
  - reflexivity.
  - cbn [Py.single_line] in Hl.
    apply andb_true_iff in Hl as [[Hlf Hcr]%andb_true_iff Hl].
    apply negb_true_iff in Hlf, Hcr.
    change (String a l +:+ Py.nl +:+ rest)
      with (String a (l +:+ Py.nl +:+ rest)).
    cbn [Py.splitlines]. rewrite Hlf, Hcr, IH by done. reflexivity.
Qed.

(** * Further properties of the module *)

(** ** Greedy classes *)

Lemma span_app p s : ∀ x r, Py.span p s = (x, r) → s = x +:+ r.
Proof.
  induction s as [|a s IH]; intros x r; cbn [Py.span].
  - by intros [= <- <-].
  - destruct (p a); [|by intros [= <- <-]].
    destruct (Py.span p s) as [x' r'] eqn:Hs. intros [= <- <-].
    change (String a x' +:+ r') with (String a (x' +:+ r')).
    f_equal. by apply IH.
Qed.

Lemma span_all p s : ∀ x r, Py.span p s = (x, r) → all_chars p x = true.
Proof.
  induction s as [|a s IH]; intros x r; cbn [Py.span].
  - by intros [= <- <-].
  - destruct (p a) eqn:Ha; [|by intros [= <- <-]].
    destruct (Py.span p s) as [x' r'] eqn:Hs. intros [= <- <-].
    cbn [all_chars]. rewrite Ha. by eapply IH.
Qed.

Lemma span_stops p s : ∀ x r, Py.span p s = (x, r) → stops p r.
Proof.
  induction s as [|a s IH]; intros x r; cbn [Py.span].
  - by intros [= <- <-].
  - destruct (p a) eqn:Ha; [|by intros [= <- <-]].
    destruct (Py.span p s) as [x' r'] eqn:Hs. intros [= <- <-].
    by eapply IH.
Qed.

(** A greedy class takes exactly the characters before the first one that
    is outside it. *)
Lemma span_exact p x r :
  all_chars p x = true → stops p r → Py.span p (x +:+ r) = (x, r).
Proof.
  intros Hx Hr. induction x as [|a x IH].
  - change ("" +:+ r) with r. destruct r as [|b r]; [done|].
    cbn [Py.span]. cbn [stops] in Hr. by rewrite Hr.
  - cbn [all_chars] in Hx. apply andb_true_iff in Hx as [Ha Hx].
    change (String a x +:+ r) with (String a (x +:+ r)).
    cbn [Py.span]. by rewrite Ha, IH.
Qed.

Lemma truthy_nonempty s : Py.truthy s = true ↔ s ≠ "".
Proof. destruct s; cbn; split; congruence. Qed.

Lemma stops_of_head (p q : ascii → bool) s :
  (∀ a, q a = true → p a = false) →
  all_chars q s = true → s ≠ "" → ∀ r, stops p (s +:+ r).
Proof.
  intros Hpq Hs Hne r. destruct s as [|a s]; [done|].
  cbn [all_chars] in Hs. apply andb_true_iff in Hs as [Ha _].
  cbn. by apply Hpq.
Qed.

(** ** Lines of [bundle list]: [_DetectGems] *)

Lemma append_char a s : String a "" +:+ s = String a s.
Proof. reflexivity. Qed.

Lemma match_gem_line_sound (line name : string) :
  match_gem_line line = Some name →
  ∃ ws0 ws1 ws2 rest,
    line = ws0 +:+ "*" +:+ ws1 +:+ name +:+ ws2 +:+ "(" +:+ rest
    ∧ all_chars Ascii.is_space ws0 = true
    ∧ all_chars Ascii.is_space ws1 = true ∧ ws1 ≠ ""
    ∧ all_chars not_space name = true ∧ name ≠ ""
    ∧ all_chars Ascii.is_space ws2 = true ∧ ws2 ≠ "".
Proof.
  unfold match_gem_line.
  destruct (Py.span Ascii.is_space line) as [ws0 r0] eqn:H0. cbn [snd].
  destruct r0 as [|star r1]; [done|].
  destruct (decide (star = "*"%char)) as [->|Hstar];
    [|by destruct star as [[] [] [] [] [] [] [] []]].
  destruct (Py.span Ascii.is_space r1) as [ws1 r2] eqn:H1.
  destruct (Py.truthy ws1) eqn:T1; [|done].
  destruct (Py.span _ r2) as [nm r3] eqn:H2.
  destruct (Py.truthy nm) eqn:T2; [|done].
  destruct (Py.span Ascii.is_space r3) as [ws2 r4] eqn:H3.
  destruct (Py.truthy ws2) eqn:T3; [|done].
  destruct r4 as [|paren rest]; [done|].
  destruct (decide (paren = "("%char)) as [->|Hparen];
    [|by destruct paren as [[] [] [] [] [] [] [] []]].
  intros [= <-]. exists ws0, ws1, ws2, rest.
  rewrite !append_char.
  rewrite <-(span_app _ _ _ _ H3), <-(span_app _ _ _ _ H2),
    <-(span_app _ _ _ _ H1).
  split_and!; try (by apply truthy_nonempty);
    eauto using span_app, span_all.
Qed.

(** X1. A line of [bundle list] is taken for a gem exactly when it is
    optional white space, a star, white space, a name without white space,
    white space and an opening parenthesis; the gem is that name. *)
Theorem gem_line_shape (line name : string) :
  match_gem_line line = Some name ↔
  ∃ ws0 ws1 ws2 rest,
    line = ws0 +:+ "*" +:+ ws1 +:+ name +:+ ws2 +:+ "(" +:+ rest
    ∧ all_chars Ascii.is_space ws0 = true
    ∧ all_chars Ascii.is_space ws1 = true ∧ ws1 ≠ ""
    ∧ all_chars not_space name = true ∧ name ≠ ""
    ∧ all_chars Ascii.is_space ws2 = true ∧ ws2 ≠ "".
Proof.
  split; [apply match_gem_line_sound|]. unfold match_gem_line.
  intros (ws0 & ws1 & ws2 & rest & -> & S0 & S1 & N1 & Sn & Nn & S2 & N2).
  rewrite !append_char.
  rewrite (span_exact _ ws0) by done. cbn [snd].
  rewrite (span_exact _ ws1);
    [|done|apply (stops_of_head _ not_space); [|done..]].
  2:{ intros a. unfold not_space. by intros ->%negb_true_iff. }
  rewrite (proj2 (truthy_nonempty ws1)) by done.
  rewrite (span_exact _ name);
    [|done|apply (stops_of_head _ Ascii.is_space); [|done..]].
  2:{ by intros a ->. }
  rewrite (proj2 (truthy_nonempty name)) by done.
  rewrite (span_exact _ ws2) by done.
  by rewrite (proj2 (truthy_nonempty ws2)).
Qed.

Lemma append_assoc s1 s2 s3 : (s1 +:+ s2) +:+ s3 = s1 +:+ s2 +:+ s3.
Proof.
  induction s1 as [|a s1 IH]; [done|].
  change ((String a (s1 +:+ s2)) +:+ s3 = String a (s1 +:+ s2 +:+ s3)).
  change (String a ((s1 +:+ s2) +:+ s3) = String a (s1 +:+ s2 +:+ s3)).
  by rewrite IH.
Qed.

Lemma append_nil_r s : s +:+ "" = s.
Proof.
  induction s as [|a s IH]; [done|].
  change (String a (s +:+ "") = String a s). by rewrite IH.
Qed.

Lemma omap_length_le {A B} (f : A → option B) (l : list A) :
  (length (omap f l) ≤ length l)%nat.
Proof.
  induction l as [|x l IH]; [done|]. cbn [omap list_omap].
  destruct (f x); cbn [length]; lia.
Qed.

Lemma gem_name_well_formed line name :
  match_gem_line line = Some name →
  name ≠ "" ∧ all_chars not_space name = true.
Proof.
  intros (ws0 & ws1 & ws2 & rest & _ & _ & _ & _ & ? & ? & _)%match_gem_line_sound.
  done.
Qed.

(** X2. The detection of gems. Without bundler it returns the empty list
    and runs nothing. With bundler it runs [bundle list] once: a non-zero
    exit raises the error that names the command; otherwise it returns, in
    order, the names of the lines that have the shape of a gem, one at most
    for each line of the output, each of them non-empty and free of white
    space. *)
Theorem DetectGems_behaviour
    (env : Collaborators) (bundler_available : bool) (fs : filesystem) :
  let r := _DetectGems env bundler_available fs in
  let output := stdout_of env "bundle list" fs in
  (bundler_available = false → r = MkRun (Returned []) fs [])
  ∧ (bundler_available = true → events r = [EvPopen "bundle list"])
  ∧ (bundler_available = true → exit_status env "bundle list" fs ≠ 0%Z →
     result r
     = Raised (RubyConfigError "Unable to run script: [bundle list]"))
  ∧ (bundler_available = true → exit_status env "bundle list" fs = 0%Z →
     result r = Returned (omap match_gem_line (Py.splitlines output))
     ∧ files r = tree_after env "bundle list" fs)
  ∧ (∀ gems, result r = Returned gems →
       Forall (λ g, g ≠ "" ∧ all_chars not_space g = true) gems
       ∧ (bundler_available = true →
          (length gems ≤ length (Py.splitlines output))%nat)).
Proof.
  intros r output. subst r output. unfold _DetectGems.
  destruct bundler_available.
  - rewrite bind_result, bind_events, bind_files, RunSubprocess_run.
    case_decide as Hexit; cbn [result files events ret].
    + split_and!; try done; intros _ ?; by destruct Hexit.
    + split_and!; try done.
      intros gems [= <-]. split.
      * apply Forall_forall. intros g (line & _ & Hg)%list_elem_of_omap.
        by eapply gem_name_well_formed.
      * intros _. apply omap_length_le.
  - split_and!; try done. intros gems [= <-]. by split.
Qed.

Lemma DetectGems_witness_puma :
  result (_DetectGems batch_env true gemfile_tree)
  = Returned (omap match_gem_line
                (Py.splitlines (stdout_of batch_env "bundle list" gemfile_tree)))
  ∧ files (_DetectGems batch_env true gemfile_tree)
    = tree_after batch_env "bundle list" gemfile_tree.
Proof.
  apply (DetectGems_behaviour batch_env true gemfile_tree); reflexivity.
Defined.

Example detected_gems_puma :
  result (_DetectGems batch_env true gemfile_tree) = Returned ["puma"; "rack"].
Proof. vm_compute. reflexivity. Qed.

(** ** The version pattern of [_DetectRubyInterpreter] *)

(** X3. A platform line gives a version only when it starts with [ruby],
    a space, digits, a dot and digits, with at most one more group of a dot
    and digits; the version is exactly that prefix after [ruby ]: it has
    digits and dots only, and what follows it in the line is not part of
    it. *)
Theorem ruby_version_shape (ruby_info v : string) :
  match_ruby_version ruby_info = Some v →
  ∃ d1 d2 tail rest,
    ruby_info = "ruby " +:+ v +:+ rest
    ∧ v = d1 +:+ "." +:+ d2 +:+ tail
    ∧ all_chars Py.is_digit d1 = true ∧ d1 ≠ ""
    ∧ all_chars Py.is_digit d2 = true ∧ d2 ≠ ""
    ∧ (tail = ""
       ∨ ∃ d3, tail = "." +:+ d3 ∧ all_chars Py.is_digit d3 = true ∧ d3 ≠ "").
Proof.
  unfold match_ruby_version.
  destruct ruby_info as [|c1 s]; [done|].
  destruct c1 as [[] [] [] [] [] [] [] []]; try done.
  destruct s as [|c2 s]; [done|].
  destruct c2 as [[] [] [] [] [] [] [] []]; try done.
  destruct s as [|c3 s]; [done|].
  destruct c3 as [[] [] [] [] [] [] [] []]; try done.
  destruct s as [|c4 s]; [done|].
  destruct c4 as [[] [] [] [] [] [] [] []]; try done.
  destruct s as [|c5 s1]; [done|].
  destruct c5 as [[] [] [] [] [] [] [] []]; try done.
  destruct (Py.span Py.is_digit s1) as [d1 r1] eqn:H1.
  destruct (Py.truthy d1) eqn:T1; [|done].
  destruct r1 as [|dot1 r1']; [done|].
  destruct (decide (dot1 = "."%char)) as [->|?];
    [|by destruct dot1 as [[] [] [] [] [] [] [] []]].
  destruct (Py.span Py.is_digit r1') as [d2 r2] eqn:H2.
  destruct (Py.truthy d2) eqn:T2; [|done].
  apply span_app in H1 as Hs1. apply span_app in H2 as Hs2.
  apply span_all in H1. apply span_all in H2.
  apply truthy_nonempty in T1, T2.
  assert (∀ tail rest, r2 = tail +:+ rest →
            "ruby " +:+ s1 = "ruby " +:+ (d1 +:+ "." +:+ d2 +:+ tail) +:+ rest)
    as Hline.
  { intros tail rest ->. rewrite Hs1, Hs2, <-append_char.
    by rewrite !append_assoc. }
  assert (Some (d1 +:+ "." +:+ d2) = Some v →
          ∃ d1' d2' tail rest,
            "ruby " +:+ s1 = "ruby " +:+ v +:+ rest
            ∧ v = d1' +:+ "." +:+ d2' +:+ tail
            ∧ all_chars Py.is_digit d1' = true ∧ d1' ≠ ""
            ∧ all_chars Py.is_digit d2' = true ∧ d2' ≠ ""
            ∧ (tail = ""
               ∨ ∃ d3, tail = "." +:+ d3
                       ∧ all_chars Py.is_digit d3 = true ∧ d3 ≠ ""))
    as Hshort.
  { intros [= <-]. exists d1, d2, "", r2. rewrite !append_nil_r.
    split_and!; auto.
    rewrite (Hline "" r2) by done. by rewrite append_nil_r. }
  change (String (Ascii false true false false true true true false)
            (String (Ascii true false true false true true true false)
               (String (Ascii false true false false false true true false)
                  (String (Ascii true false false true true true true false)
                     (String (Ascii false false false false false true false
                                false) s1)))))
    with ("ruby " +:+ s1).
  destruct r2 as [|dot2 r2']; [done|].
  destruct (decide (dot2 = "."%char)) as [->|?];
    [|by destruct dot2 as [[] [] [] [] [] [] [] []]].
  destruct (Py.span Py.is_digit r2') as [d3 r3] eqn:H3.
  destruct (Py.truthy d3) eqn:T3; [|done].
  intros [= <-]. exists d1, d2, ("." +:+ d3), r3.
  apply span_app in H3 as Hs3. apply span_all in H3.
  apply truthy_nonempty in T3.
  split_and!; auto.
  - rewrite <-!append_assoc. rewrite !append_assoc.
    rewrite (Hline ("." +:+ d3) r3); [by rewrite !append_assoc|].
    by rewrite Hs3, append_assoc.
  - right. by exists d3.
Qed.

Lemma ruby_version_shape_witness :
  ∃ d1 d2 tail rest,
    "ruby 2.0.0p645" = "ruby " +:+ "2.0.0" +:+ rest
    ∧ "2.0.0" = d1 +:+ "." +:+ d2 +:+ tail
    ∧ all_chars Py.is_digit d1 = true ∧ d1 ≠ ""
    ∧ all_chars Py.is_digit d2 = true ∧ d2 ≠ ""
    ∧ (tail = ""
       ∨ ∃ d3, tail = "." +:+ d3 ∧ all_chars Py.is_digit d3 = true ∧ d3 ≠ "").
Proof.
  apply (ruby_version_shape "ruby 2.0.0p645" "2.0.0"). reflexivity.
Defined.

(** ** Reading a file: [_ReadFile] *)

(** X4. [_ReadFile] opens a path only after [os.path.isfile] has found a
    regular file there. Anything else (no node, or a directory) gives None,
    or, when the file is required, the error that names it, and then nothing
    is opened. A file that can be read gives its content. The test does not
    look at permissions: a file that cannot be read gets past it, and [open]
    raises its IOError, required or not; there is no other way to an
    IOError. The tree is left as it is. *)
Theorem ReadFile_behaviour
    (root_dir file_name : string) (required : bool) (fs : filesystem) :
  let r := _ReadFile root_dir file_name required fs in
  let path := Py.os_path_join root_dir file_name in
  files r = fs
  ∧ (∀ c, fs !! path = Some (File c) →
          result r = Returned (Some c)
          ∧ events r = [EvIsFile path; EvRead path])
  ∧ (fs !! path = Some Unreadable →
     result r = Raised (IOError path)
     ∧ events r = [EvIsFile path; EvRead path])
  ∧ (is_file fs path = false → events r = [EvIsFile path])
  ∧ (is_file fs path = false → required = false → result r = Returned None)
  ∧ (is_file fs path = false → required = true →
     result r = Raised (RubyConfigError ("Could not find required file: ["
                                         +:+ file_name +:+ "]")))
  ∧ (∀ p, result r = Raised (IOError p) →
          p = path ∧ fs !! path = Some Unreadable).
Proof.
  intros r path. subst r. unfold _ReadFile. fold path.
  unfold bind, os_path_isfile, read_file, is_file.
  destruct (fs !! path) as [[c| |]|] eqn:Hp;
    repeat (cbn [negb ret raise result files events app]; rewrite ?Hp);
    try (destruct required; cbn [ret raise result files events]);
    split_and!; try done; try (by intros ? [= <-]); by intros ? [= <-].
Qed.

Lemma ReadFile_witness_pinned :
  result (_ReadFile "app" ".ruby-version" true pinned_tree)
  = Returned (Some ("2.0.0" +:+ Py.nl))
  ∧ events (_ReadFile "app" ".ruby-version" true pinned_tree)
    = [EvIsFile "app/.ruby-version"; EvRead "app/.ruby-version"].
Proof.
  apply (ReadFile_behaviour "app" ".ruby-version" true pinned_tree).
  reflexivity.
Defined.

Example ReadFile_protected :
  _ReadFile "app" ".ruby-version" false protected_tree
  = MkRun (Raised (IOError "app/.ruby-version")) protected_tree
          [EvIsFile "app/.ruby-version"; EvRead "app/.ruby-version"].
Proof. vm_compute. reflexivity. Qed.

Example ReadFile_required_directory :
  result (_ReadFile "app" "config" true
            (<[ "app/config" := Directory ]> gemfile_tree))
  = Raised (RubyConfigError "Could not find required file: [config]").
Proof. vm_compute. reflexivity. Qed.

(** ** The candidate check: [_CheckForRubyRuntime] *)

Lemma CheckForRubyRuntime_run env path ai fs :
  _CheckForRubyRuntime env path ai fs =
  if declares_ruby ai then MkRun (Returned true) fs []
  else if negb (is_file fs (Py.os_path_join path "Gemfile"))
  then MkRun (Returned false) fs
         [EvLogInfo "Checking for Ruby.";
          EvIsFile (Py.os_path_join path "Gemfile")]
  else if CanPrompt env
  then MkRun (Returned (confirms_ruby env)) fs
         [EvLogInfo "Checking for Ruby.";
          EvIsFile (Py.os_path_join path "Gemfile");
          EvCanPrompt;
          EvPromptContinue "This looks like a Ruby application."
                           "Proceed to configure deployment for Ruby?"]
  else MkRun (Returned true) fs
         [EvLogInfo "Checking for Ruby.";
          EvIsFile (Py.os_path_join path "Gemfile");
          EvCanPrompt;
          EvLogInfo "This looks like a Ruby application."].
Proof.
  unfold _CheckForRubyRuntime, declares_ruby.
  destruct (match ai with Some a => _ | None => false end); [done|].
  unfold bind, log_info, emit, os_path_isfile, console_io_CanPrompt,
    console_io_PromptContinue, confirms_ruby.
  cbn [result files events].
  destruct (is_file fs _); cbn [negb ret result files events app]; [|done].
  by destruct (CanPrompt env).
Qed.

Lemma CheckForRubyRuntime_files env path ai fs :
  files (_CheckForRubyRuntime env path ai fs) = fs.
Proof. rewrite CheckForRubyRuntime_run. by repeat case_match. Qed.

(** X5. The candidate check never raises and never changes the tree. An
    app.yaml that declares the ruby runtime settles it at once: the answer
    is yes and nothing is probed, printed or asked, whether a Gemfile exists
    or not. Otherwise no Gemfile means no, and the console is not used;
    with a Gemfile, a run that cannot prompt says yes without asking, and a
    run that can prompt asks once and returns the answer. *)
Theorem CheckForRubyRuntime_behaviour
    (env : Collaborators) (path : string) (ai : option AppInfoExternal)
    (fs : filesystem) :
  let r := _CheckForRubyRuntime env path ai fs in
  let gemfile := is_file fs (Py.os_path_join path "Gemfile") in
  files r = fs
  ∧ (∃ b, result r = Returned b)
  ∧ (declares_ruby ai = true → result r = Returned true ∧ events r = [])
  ∧ (declares_ruby ai = false → gemfile = false →
     result r = Returned false ∧ existsb console_event (events r) = false)
  ∧ (declares_ruby ai = false → gemfile = true → CanPrompt env = false →
     result r = Returned true
     ∧ existsb confirmation_event (events r) = false)
  ∧ (declares_ruby ai = false → gemfile = true → CanPrompt env = true →
     result r = Returned (confirms_ruby env)
     ∧ length (filter (λ ev, confirmation_event ev = true) (events r))
       = 1%nat).
Proof.
  intros r gemfile. subst r. rewrite CheckForRubyRuntime_run. fold gemfile.
  destruct (declares_ruby ai); cbn [result files events].
  { split_and!; eauto; done. }
  destruct gemfile; cbn [negb result files events].
  - destruct (CanPrompt env); cbn [result files events].
    + split_and!; eauto; done.
    + split_and!; eauto; done.
  - split_and!; eauto; done.
Qed.

Lemma CheckForRubyRuntime_witness_batch :
  result (_CheckForRubyRuntime batch_env "app" None gemfile_tree)
  = Returned true
  ∧ existsb confirmation_event
      (events (_CheckForRubyRuntime batch_env "app" None gemfile_tree))
    = false.
Proof.
  apply (CheckForRubyRuntime_behaviour batch_env "app" None gemfile_tree);
    reflexivity.
Defined.

(** ** What a run can raise, and what it does to the tree *)

Lemma bind_raised {A B} (m : M A) (k : A → M B) fs e :
  result (bind m k fs) = Raised e →
  result (m fs) = Raised e
  ∨ ∃ a, result (m fs) = Returned a ∧ result (k a (files (m fs))) = Raised e.
Proof.
  rewrite bind_result. destruct (result (m fs)) as [a|e'].
  - intros He. right. by exists a.
  - intros [= ->]. by left.
Qed.

Section RaisesOnly.
Context {Q : error → filesystem → Prop}.

Lemma raises_never {A} (m : M A) :
  (∀ fs, ∃ a, result (m fs) = Returned a) → raises_only Q m.
Proof. intros Hm fs e He. destruct (Hm fs) as [a Ha]. congruence. Qed.

Lemma raises_ret {A} (a : A) : raises_only Q (ret a).
Proof. apply raises_never. eauto. Qed.

Lemma raises_raise {A} (e : error) :
  (∀ fs, Q e fs) → raises_only Q (raise (A:=A) e).
Proof. intros HQ fs e' [= <-]. apply HQ. Qed.

Lemma raises_bind {A B} (m : M A) (k : A → M B) :
  raises_only Q m → (∀ a, raises_only Q (k a)) → raises_only Q (bind m k).
Proof.
  intros Hm Hk fs e He. rewrite bind_files.
  apply bind_raised in He as [He|(a & Ha & He)].
  - rewrite He. by apply Hm.
  - rewrite Ha. by apply Hk.
Qed.

Lemma raises_emit ev : raises_only Q (emit ev).
Proof. apply raises_never. eauto. Qed.

Lemma raises_log_info msg : raises_only Q (log_info msg).
Proof. apply raises_emit. Qed.

Lemma raises_log_status_Print msg : raises_only Q (log_status_Print msg).
Proof. apply raises_emit. Qed.

Lemma raises_isfile path : raises_only Q (os_path_isfile path).
Proof. apply raises_never. eauto. Qed.

Lemma raises_CanPrompt env : raises_only Q (console_io_CanPrompt env).
Proof. apply raises_never. eauto. Qed.

Lemma raises_PromptContinue env m p :
  raises_only Q (console_io_PromptContinue env m p).
Proof. apply raises_never. eauto. Qed.

Lemma raises_PromptResponse env m :
  raises_only Q (console_io_PromptResponse env m).
Proof. apply raises_never. eauto. Qed.

Lemma raises_SubprocessSucceeds env cmd :
  raises_only Q (_SubprocessSucceeds env cmd).
Proof.
  apply raises_never. intros fs. rewrite SubprocessSucceeds_run. eauto.
Qed.

Lemma raises_RunSubprocess env cmd :
  (∀ msg fs, Q (RubyConfigError msg) fs) →
  raises_only Q (_RunSubprocess env cmd).
Proof.
  intros HQ fs e. rewrite RunSubprocess_run.
  case_decide; cbn [result]; [|done]. intros [= <-]. apply HQ.
Qed.

(** The fallback to .ruby-version raises in one way only: [open] refuses
    the file. *)
Lemma raises_ruby_version_file path :
  (∀ fs, fs !! Py.os_path_join path ".ruby-version" = Some Unreadable →
         Q (IOError (Py.os_path_join path ".ruby-version")) fs) →
  raises_only Q (ruby_version_file path).
Proof.
  intros HQ fs e. destruct (ruby_version_file_result path fs) as [-> ->].
  destruct (fs !! _) as [[c| |]|] eqn:Hp; try done.
  - by destruct (Py.truthy c).
  - intros [= <-]. by apply HQ.
Qed.

End RaisesOnly.

Create HintDb raises discriminated.
#[export] Hint Resolve raises_ret raises_raise raises_log_info
  raises_log_status_Print raises_isfile raises_CanPrompt
  raises_PromptContinue raises_PromptResponse raises_SubprocessSucceeds
  raises_RunSubprocess raises_ruby_version_file : raises.
#[export] Hint Extern 1 (raises_within _ _ _ _) =>
  first [ left; reflexivity
        | right; split; [reflexivity|assumption] ] : raises.

Ltac raises_step :=
  cbv zeta;
  lazymatch goal with
  | |- raises_only _ (bind _ _) => apply raises_bind; [|intros ?]
  | |- raises_only _ (if ?b then _ else _) => destruct b
  | |- raises_only _ (match ?o with Some _ => _ | None => _ end) => destruct o
  | |- raises_only _ _ => solve [auto with raises]
  end.
Ltac raises_walk := repeat raises_step.

Section KeepsTree.

Lemma keeps_tree_ret {A} (a : A) : keeps_tree (ret a).
Proof. by intros fs. Qed.

Lemma keeps_tree_raise {A} (e : error) : keeps_tree (raise (A:=A) e).
Proof. by intros fs. Qed.

Lemma keeps_tree_bind {A B} (m : M A) (k : A → M B) :
  keeps_tree m → (∀ a, keeps_tree (k a)) → keeps_tree (bind m k).
Proof.
  intros Hm Hk fs. rewrite bind_files.
  destruct (result (m fs)); [|apply Hm]. by rewrite Hm, Hk.
Qed.

Lemma keeps_tree_log_info msg : keeps_tree (log_info msg).
Proof. by intros fs. Qed.

Lemma keeps_tree_log_status_Print msg : keeps_tree (log_status_Print msg).
Proof. by intros fs. Qed.

Lemma keeps_tree_isfile path : keeps_tree (os_path_isfile path).
Proof. by intros fs. Qed.

Lemma keeps_tree_CanPrompt env : keeps_tree (console_io_CanPrompt env).
Proof. by intros fs. Qed.

Lemma keeps_tree_PromptContinue env m p :
  keeps_tree (console_io_PromptContinue env m p).
Proof. by intros fs. Qed.

Lemma keeps_tree_PromptResponse env m :
  keeps_tree (console_io_PromptResponse env m).
Proof. by intros fs. Qed.

Lemma keeps_tree_ruby_version_file path : keeps_tree (ruby_version_file path).
Proof. intros fs. by destruct (ruby_version_file_result path fs). Qed.

Lemma keeps_tree_SubprocessSucceeds env cmd :
  shell_keeps_tree env → keeps_tree (_SubprocessSucceeds env cmd).
Proof. intros Hshell fs. rewrite SubprocessSucceeds_run. apply Hshell. Qed.

Lemma keeps_tree_RunSubprocess env cmd :
  shell_keeps_tree env → keeps_tree (_RunSubprocess env cmd).
Proof.
  intros Hshell fs. rewrite RunSubprocess_run.
  case_decide; apply Hshell.
Qed.

End KeepsTree.

Create HintDb keeps_tree discriminated.
#[export] Hint Resolve keeps_tree_ret keeps_tree_raise keeps_tree_log_info
  keeps_tree_log_status_Print keeps_tree_isfile keeps_tree_CanPrompt
  keeps_tree_PromptContinue keeps_tree_PromptResponse
  keeps_tree_ruby_version_file keeps_tree_SubprocessSucceeds
  keeps_tree_RunSubprocess : keeps_tree.

Ltac keeps_tree_step :=
  cbv zeta;
  lazymatch goal with
  | |- keeps_tree (bind _ _) => apply keeps_tree_bind; [|intros ?]
  | |- keeps_tree (if ?b then _ else _) => destruct b
  | |- keeps_tree (match ?o with Some _ => _ | None => _ end) => destruct o
  | |- keeps_tree _ => solve [auto with keeps_tree]
  end.
Ltac keeps_tree_walk := repeat keeps_tree_step.

#[export] Hint Extern 1 (fingerprint_event _ = true) => reflexivity : emits.
Ltac emits_walk_zeta := repeat (cbv zeta; emits_step).

(** ** The fingerprint as a whole: errors, effects, frame *)

(** X8. Whatever its probes, reads, subprocesses and prompts give, a
    fingerprint raises a [RubyConfigError], or one of its two subclasses,
    with one exception: when the detection of the interpreter falls back to
    .ruby-version and that file cannot be read, the IOError of [open] goes
    through to the caller, and a caller that catches [RubyConfigError] does
    not catch it. *)
Theorem Fingerprint_errors
    (env : Collaborators) (path : string) (params : Params) (fs : filesystem)
    (e : error) :
  result (Fingerprint env path params fs) = Raised e →
  is_config_error e = true
  ∨ (e = IOError (Py.os_path_join path ".ruby-version")
     ∧ files (Fingerprint env path params fs)
         !! Py.os_path_join path ".ruby-version" = Some Unreadable).
Proof.
  revert fs e.
  change (raises_only (raises_within is_config_error path)
                      (Fingerprint env path params)).
  unfold Fingerprint, _CheckForRubyRuntime, _CheckEnvironment, _DetectGems,
    _DetectRubyInterpreter, _DetectDefaultEntrypoint, _ChooseEntrypoint.
  raises_walk.
Qed.

Lemma Fingerprint_errors_witness_protected :
  is_config_error (IOError "app/.ruby-version") = true
  ∨ (IOError "app/.ruby-version" = IOError (Py.os_path_join "app" ".ruby-version")
     ∧ files (Fingerprint terminal_env "app" no_appinfo protected_tree)
         !! Py.os_path_join "app" ".ruby-version" = Some Unreadable).
Proof.
  apply (Fingerprint_errors terminal_env "app" no_appinfo protected_tree).
  vm_compute. reflexivity.
Defined.

(** The two kinds of error, on concrete trees: no Gemfile under an app.yaml
    that declares ruby; a .ruby-version that cannot be read. *)
Example fingerprint_errors_both :
  result (Fingerprint terminal_env "app" ruby_appinfo ∅)
  = Raised (MissingGemfileError "Gemfile is required for Ruby runtime.")
  ∧ result (Fingerprint terminal_env "app" no_appinfo protected_tree)
    = Raised (IOError "app/.ruby-version").
Proof. split; vm_compute; reflexivity. Qed.

(** X9. A fingerprint never writes a file and never asks whether a path
    exists; the only commands it runs are [bundle version], [bundle check],
    [bundle platform --ruby] and [bundle list]. *)
Theorem Fingerprint_events
    (env : Collaborators) (path : string) (params : Params) (fs : filesystem) :
  Forall (λ ev, fingerprint_event ev = true)
         (events (Fingerprint env path params fs)).
Proof.
  revert fs.
  change (emits (λ ev, fingerprint_event ev = true)
                (Fingerprint env path params)).
  unfold Fingerprint, _CheckForRubyRuntime, _CheckEnvironment, _DetectGems,
    _DetectRubyInterpreter, ruby_version_file, _ReadFile,
    _DetectDefaultEntrypoint, _ChooseEntrypoint.
  emits_walk_zeta.
Qed.

(** X10. A fingerprint changes the tree only through bundler: with a shell
    that leaves the tree as it is, the tree after the fingerprint is the
    tree before it, whether the fingerprint returns or raises. *)
Theorem Fingerprint_keeps_tree
    (env : Collaborators) (path : string) (params : Params) (fs : filesystem) :
  shell_keeps_tree env → files (Fingerprint env path params fs) = fs.
Proof.
  intros Hshell. revert fs.
  change (keeps_tree (Fingerprint env path params)).
  unfold Fingerprint, _CheckForRubyRuntime, _CheckEnvironment, _DetectGems,
    _DetectRubyInterpreter, _DetectDefaultEntrypoint, _ChooseEntrypoint.
  keeps_tree_walk.
Qed.

Lemma Fingerprint_keeps_tree_witness :
  files (Fingerprint gemfile_ruby_env "app" ruby_appinfo pinned_tree)
  = pinned_tree.
Proof.
  apply (Fingerprint_keeps_tree gemfile_ruby_env "app" ruby_appinfo
           pinned_tree).
  intros cmd fs. unfold tree_after, gemfile_ruby_env, Popen, bundler_shell.
  repeat case_decide; reflexivity.
Defined.

(** After the environment check a fingerprint raises plain errors only,
    or the error of [open]. *)
Ltac tail_raises_plain path H :=
  cbv beta in H;
  lazymatch type of H with
  | result (?m _) = Raised _ =>
      let Htail := fresh "Htail" in
      assert (raises_only (raises_within is_plain_config_error path) m)
        as Htail
        by (unfold _DetectGems, _DetectRubyInterpreter,
              _DetectDefaultEntrypoint, _ChooseEntrypoint; raises_walk);
      apply Htail in H
  end.

Lemma Fingerprint_None env path params fs :
  result (Fingerprint env path params fs) = Returned None →
  result (_CheckForRubyRuntime env path (appinfo params) fs) = Returned false.
Proof.
  unfold Fingerprint. intros H.
  apply bind_returned in H as (is_ruby & Hcheck & H).
  destruct is_ruby; [|done]. cbn [negb] in H.
  do 4 (apply bind_returned in H as (? & _ & H)). discriminate.
Qed.

Lemma Fingerprint_declined env path params fs :
  result (_CheckForRubyRuntime env path (appinfo params) fs) = Returned false →
  result (Fingerprint env path params fs) = Returned None
  ∧ files (Fingerprint env path params fs) = fs
  ∧ events (Fingerprint env path params fs)
    = events (_CheckForRubyRuntime env path (appinfo params) fs).
Proof.
  intros Hcheck. unfold Fingerprint.
  rewrite bind_result, bind_files, bind_events, Hcheck.
  cbn [negb ret result files events]. rewrite app_nil_r.
  split_and!; [done| |done].
  apply CheckForRubyRuntime_files.
Qed.

(** X6. A fingerprint returns None, "not a Ruby app", exactly when the
    app.yaml does not declare the ruby runtime and either there is no
    Gemfile or the user, asked on a terminal, declines. It then has run no
    command and left the tree as it was. *)
Theorem Fingerprint_not_a_candidate
    (env : Collaborators) (path : string) (params : Params) (fs : filesystem) :
  let r := Fingerprint env path params fs in
  let gemfile := is_file fs (Py.os_path_join path "Gemfile") in
  (result r = Returned None
   ↔ declares_ruby (appinfo params) = false
     ∧ (gemfile = false ∨ (CanPrompt env = true ∧ confirms_ruby env = false)))
  ∧ (result r = Returned None →
     files r = fs ∧ existsb popen_event (events r) = false).
Proof.
  intros r gemfile. subst r.
  assert (result (_CheckForRubyRuntime env path (appinfo params) fs)
          = Returned false
          ↔ declares_ruby (appinfo params) = false
            ∧ (gemfile = false
               ∨ (CanPrompt env = true ∧ confirms_ruby env = false)))
    as Hcheck.
  { rewrite CheckForRubyRuntime_run. fold gemfile.
    destruct (declares_ruby _); cbn [result]; [intuition congruence|].
    destruct gemfile; cbn [negb result]; [|intuition congruence].
    destruct (CanPrompt env); cbn [result]; [|intuition congruence].
    destruct (confirms_ruby env); intuition congruence. }
  split.
  - rewrite <-Hcheck. split; [apply Fingerprint_None|].
    by intros []%Fingerprint_declined.
  - intros Hnone%Fingerprint_None.
    destruct (Fingerprint_declined _ _ _ _ Hnone) as (_ & -> & ->).
    split; [done|]. revert Hnone. rewrite CheckForRubyRuntime_run.
    repeat case_match; done.
Qed.

Example fingerprint_of_empty_directory :
  Fingerprint terminal_env "app" no_appinfo ∅
  = MkRun (Returned None) ∅
          [EvLogInfo "Checking for Ruby."; EvIsFile "app/Gemfile"].
Proof. vm_compute. reflexivity. Qed.

(** X7. A fingerprint raises the missing-Gemfile error exactly when the
    app.yaml declares the ruby runtime and there is no Gemfile: a tree that
    was taken for a Ruby app because of its Gemfile cannot fail for the
    lack of it. *)
Theorem Fingerprint_missing_gemfile
    (env : Collaborators) (path : string) (params : Params) (fs : filesystem) :
  (∃ msg, result (Fingerprint env path params fs)
          = Raised (MissingGemfileError msg))
  ↔ declares_ruby (appinfo params) = true
    ∧ is_file fs (Py.os_path_join path "Gemfile") = false.
Proof.
  split.
  - intros [msg H]. unfold Fingerprint in H.
    apply bind_raised in H as [H|(is_ruby & Hcheck & H)].
    { rewrite CheckForRubyRuntime_run in H. by repeat case_match. }
    destruct is_ruby; [|done]. cbn [negb] in H.
    assert (files (_CheckForRubyRuntime env path (appinfo params) fs) = fs)
      as Hfs by apply CheckForRubyRuntime_files.
    rewrite Hfs in H.
    apply bind_raised in H as [H|(b & _ & H)].
    + rewrite CheckEnvironment_result in H.
      destruct (is_file fs _) eqn:Hgem; [by repeat case_match|].
      split; [|done]. rewrite CheckForRubyRuntime_run, Hgem in Hcheck.
      by destruct (declares_ruby _).
    + tail_raises_plain path H. by destruct H as [?|[? _]].
  - intros [Hdecl Hgem]. exists "Gemfile is required for Ruby runtime.".
    unfold Fingerprint.
    rewrite bind_result, CheckForRubyRuntime_run, Hdecl.
    cbn [negb result files].
    by rewrite bind_result, CheckEnvironment_result, Hgem.
Qed.

(** ** A fingerprint without bundler *)

Lemma Forall_events_bind {A B} (P : event → Prop) (m : M A) (k : A → M B) fs :
  Forall P (events (m fs)) →
  (∀ a, result (m fs) = Returned a → Forall P (events (k a (files (m fs))))) →
  Forall P (events (bind m k fs)).
Proof.
  intros Hm Hk. rewrite bind_events.
  destruct (result (m fs)) as [a|e]; [|done].
  apply Forall_app. auto.
Qed.

Lemma CheckEnvironment_without_bundler env path fs :
  ¬ bundler_works env fs →
  Forall (λ ev, beyond_bundle_version ev = false)
         (events (_CheckEnvironment env path fs))
  ∧ (∀ b, result (_CheckEnvironment env path fs) = Returned b →
          b = false
          ∧ EvStatusPrint bundler_missing_notice
            ∈ events (_CheckEnvironment env path fs)).
Proof.
  intros Hnone. destruct (is_file fs (Py.os_path_join path "Gemfile")) eqn:Hgem.
  - rewrite CheckEnvironment_warns_without_bundler by done.
    rewrite CheckEnvironment_result, Hgem.
    unfold bundler_works in Hnone. rewrite bool_decide_eq_false_2 by done.
    split; [by repeat constructor|].
    intros b [= <-]. split; [done|]. rewrite !elem_of_cons. auto.
  - rewrite CheckEnvironment_result, Hgem. split; [|done].
    unfold _CheckEnvironment. rewrite bind_events.
    cbn [os_path_isfile result files events]. rewrite Hgem.
    by repeat constructor.
Qed.

(** X11. When [bundle version] fails, the fingerprint runs no other
    command: no check, no platform, no list. A configurator that it returns
    has no extra packages, and the notice about bundler has been printed. *)
Theorem Fingerprint_without_bundler
    (env : Collaborators) (path : string) (params : Params) (fs : filesystem) :
  ¬ bundler_works env fs →
  let r := Fingerprint env path params fs in
  Forall (λ ev, beyond_bundle_version ev = false) (events r)
  ∧ (∀ cfg, result r = Returned (Some cfg) →
            packages cfg = []
            ∧ EvStatusPrint bundler_missing_notice ∈ events r).
Proof.
  intros Hnone r. subst r.
  assert (files (_CheckForRubyRuntime env path (appinfo params) fs) = fs)
    as Hfs by apply CheckForRubyRuntime_files.
  destruct (CheckEnvironment_without_bundler env path fs Hnone)
    as [Henv_events Henv_result].
  split.
  - unfold Fingerprint. apply Forall_events_bind.
    { rewrite CheckForRubyRuntime_run. repeat case_match; by repeat constructor. }
    intros is_ruby _. rewrite Hfs.
    destruct is_ruby; cbn [negb]; [|by constructor].
    apply Forall_events_bind; [done|].
    intros b [-> _]%Henv_result. generalize (files (_CheckEnvironment env path fs)).
    change (emits (λ ev, beyond_bundle_version ev = false)
              (bind (_DetectGems env false)
                 (λ gems, bind (_DetectRubyInterpreter env path false)
                   (λ ruby_version,
                      bind match configured_entrypoint (appinfo params) with
                           | Some e => ret e
                           | None =>
                               bind (_DetectDefaultEntrypoint path gems)
                                 (λ default_entrypoint,
                                    _ChooseEntrypoint env default_entrypoint
                                      (appinfo params))
                           end
                        (λ entrypoint,
                           ret (Some {| root := path; params := params;
                                        ruby_version := ruby_version;
                                        entrypoint := entrypoint;
                                        packages := _DetectNeededPackages gems
                                     |})))))).
    unfold _DetectGems, _DetectRubyInterpreter, ruby_version_file, _ReadFile,
      _DetectDefaultEntrypoint, _ChooseEntrypoint.
    assert (∀ ev, popen_event ev = false → beyond_bundle_version ev = false)
      as Hquiet by (by intros []).
    repeat (cbv zeta; first
      [ apply emits_bind; [|intros ?]
      | apply emits_ret | apply emits_raise
      | apply emits_log_status_Print; reflexivity
      | apply emits_isfile; reflexivity
      | apply emits_read_file; reflexivity
      | apply emits_CanPrompt; reflexivity
      | apply emits_PromptResponse; reflexivity
      | match goal with
        | |- emits _ (if ?b then _ else _) => destruct b
        | |- emits _ (match ?o with Some _ => _ | None => _ end) => destruct o
        end ]).
  - intros cfg Hrun. unfold Fingerprint in Hrun |- *.
    apply bind_returned in Hrun as (is_ruby & Hcheck & Hrun).
    destruct is_ruby; [|done]. cbn [negb] in Hrun. rewrite Hfs in Hrun.
    apply bind_returned in Hrun as (b & Henv & Hrun).
    apply Henv_result in Henv as Hb. destruct Hb as [-> Hnotice].
    apply bind_returned in Hrun as (gems & Hgems & Hrun).
    cbn [_DetectGems ret result] in Hgems. injection Hgems as <-.
    apply bind_returned in Hrun as (version & _ & Hrun).
    apply bind_returned in Hrun as (e & _ & Hrun).
    injection Hrun as <-. cbn [packages]. split; [reflexivity|].
    rewrite bind_events, Hcheck. cbn [negb]. rewrite Hfs, bind_events, Henv.
    rewrite !elem_of_app. auto.
Qed.

Lemma Fingerprint_without_bundler_witness :
  let r := Fingerprint terminal_env "app" no_appinfo rack_tree in
  Forall (λ ev, beyond_bundle_version ev = false) (events r)
  ∧ (∀ cfg, result r = Returned (Some cfg) →
            packages cfg = []
            ∧ EvStatusPrint bundler_missing_notice ∈ events r).
Proof.
  apply (Fingerprint_without_bundler terminal_env "app" no_appinfo rack_tree).
  vm_compute. discriminate.
Defined.

(** ** The Gemfile.lock notice of [_CheckEnvironment] *)

(** X12. When the environment check returns true (bundler is there and the
    bundle is up to date), the tree has been through both bundler commands,
    and the notice about a missing Gemfile.lock is printed exactly when the
    tree had no Gemfile.lock before bundler ran, whether or not bundler has
    created one since. *)
Theorem CheckEnvironment_lock_notice
    (env : Collaborators) (path : string) (fs : filesystem) :
  result (_CheckEnvironment env path fs) = Returned true →
  let r := _CheckEnvironment env path fs in
  let lock := is_file fs (Py.os_path_join path "Gemfile.lock") in
  files r = tree_after env "bundle check" (tree_after env "bundle version" fs)
  ∧ events r
    = ([ EvIsFile (Py.os_path_join path "Gemfile");
         EvIsFile (Py.os_path_join path "Gemfile.lock");
         EvPopen "bundle version";
         EvPopen "bundle check" ]
       ++ if lock then [] else [EvStatusPrint gemfile_lock_notice])%list.
Proof.
  rewrite CheckEnvironment_result.
  destruct (is_file fs (Py.os_path_join path "Gemfile")) eqn:Hgem; [|done].
  case_bool_decide as Hv; [|done]. case_bool_decide as Hc; [|done].
  intros _ r lock. subst r lock. unfold _CheckEnvironment.
  repeat first
    [ rewrite bind_files | rewrite bind_events | rewrite bind_result
    | rewrite SubprocessSucceeds_run
    | rewrite Hgem
    | rewrite (bool_decide_eq_true_2 _ Hv)
    | rewrite (bool_decide_eq_true_2 _ Hc)
    | progress cbn [os_path_isfile result files events negb] ].
  by destruct (is_file fs (Py.os_path_join path "Gemfile.lock")).
Qed.

Lemma CheckEnvironment_lock_notice_witness :
  let r := _CheckEnvironment batch_env "app" gemfile_tree in
  let lock := is_file gemfile_tree (Py.os_path_join "app" "Gemfile.lock") in
  files r = tree_after batch_env "bundle check"
              (tree_after batch_env "bundle version" gemfile_tree)
  ∧ events r
    = ([ EvIsFile (Py.os_path_join "app" "Gemfile");
         EvIsFile (Py.os_path_join "app" "Gemfile.lock");
         EvPopen "bundle version";
         EvPopen "bundle check" ]
       ++ if lock then [] else [EvStatusPrint gemfile_lock_notice])%list.
Proof.
  apply (CheckEnvironment_lock_notice batch_env "app" gemfile_tree).
  vm_compute. reflexivity.
Defined.

(** ** Every interpreter is announced: [_DetectRubyInterpreter] *)

Lemma ruby_version_file_run path fs :
  let p := Py.os_path_join path ".ruby-version" in
  ruby_version_file path fs =
  match fs !! p with
  | Some (File c) =>
      if Py.truthy c
      then MkRun (Returned (Some (Py.strip c))) fs
             [EvIsFile p; EvRead p;
              EvStatusPrint (Py.nl +:+ "Using Ruby " +:+ Py.strip c
                             +:+ " as requested in the .ruby-version file")]
      else MkRun (Returned None) fs
             [EvIsFile p; EvRead p; EvStatusPrint default_interpreter_notice]
  | Some Unreadable => MkRun (Raised (IOError p)) fs [EvIsFile p; EvRead p]
  | _ => MkRun (Returned None) fs
           [EvIsFile p; EvStatusPrint default_interpreter_notice]
  end.
Proof.
  intros p. unfold ruby_version_file, _ReadFile. fold p.
  unfold bind, os_path_isfile, read_file, is_file, log_status_Print, emit.
  destruct (fs !! p) as [[c| |]|] eqn:E;
    repeat (cbn [negb ret result files events app]; rewrite ?E); [|done..].
  by destruct c.
Qed.

(** X13. The detection of the interpreter raises in two ways only. One:
    bundler is available and [bundle platform --ruby] fails; then it has not
    looked at .ruby-version. Two: it falls back to .ruby-version and [open]
    refuses the file; the IOError comes right after the attempt to read,
    with nothing printed about the interpreter. Whenever it
    returns, the last thing it printed says what it returned: the version
    and where it came from, or the notice about the default interpreter. *)
Theorem DetectRubyInterpreter_announces
    (env : Collaborators) (path : string) (bundler_available : bool)
    (fs : filesystem) :
  let r := _DetectRubyInterpreter env path bundler_available fs in
  let version_file := Py.os_path_join path ".ruby-version" in
  (∀ v, result r = Returned (Some v) →
        ∃ source,
          (source = "Gemfile." ∨ source = ".ruby-version file")
          ∧ last (events r)
            = Some (EvStatusPrint (Py.nl +:+ "Using Ruby " +:+ v
                                   +:+ " as requested in the " +:+ source)))
  ∧ (result r = Returned None →
     last (events r) = Some (EvStatusPrint default_interpreter_notice))
  ∧ (∀ e, result r = Raised e →
          (bundler_available = true
           ∧ exit_status env "bundle platform --ruby" fs ≠ 0%Z
           ∧ e = RubyConfigError
                   "Unable to run script: [bundle platform --ruby]"
           ∧ events r = [EvPopen "bundle platform --ruby"])
          ∨ ((bundler_available = true →
              exit_status env "bundle platform --ruby" fs = 0%Z)
             ∧ e = IOError version_file
             ∧ files r !! version_file = Some Unreadable
             ∧ last (events r) = Some (EvRead version_file))).
Proof.
  intros r version_file. subst r.
  assert (∀ fs' pre,
    let f := ruby_version_file path fs' in
    (∀ v, result f = Returned (Some v) →
       ∃ source,
         (source = "Gemfile." ∨ source = ".ruby-version file")
         ∧ last (pre ++ events f)
           = Some (EvStatusPrint (Py.nl +:+ "Using Ruby " +:+ v
                                  +:+ " as requested in the " +:+ source)))
    ∧ (result f = Returned None →
       last (pre ++ events f)
       = Some (EvStatusPrint default_interpreter_notice))
    ∧ (∀ e, result f = Raised e →
            e = IOError version_file
            ∧ files f !! version_file = Some Unreadable
            ∧ last (pre ++ events f) = Some (EvRead version_file))) as Hfile.
  { intros fs' pre f. subst f. rewrite ruby_version_file_run. cbv zeta.
    fold version_file.
    destruct (fs' !! version_file) as [[c| |]|] eqn:Hp;
      [destruct (Py.truthy c)|..];
      cbn [result files events]; split_and!; try done.
    - intros v [= <-]. exists ".ruby-version file". split; [by right|].
      by rewrite last_app_cons.
    - intros _. by rewrite last_app_cons.
    - intros e [= <-]. split_and!; [done..|]. by rewrite last_app_cons.
    - intros _. by rewrite last_app_cons.
    - intros _. by rewrite last_app_cons. }
  unfold _DetectRubyInterpreter. destruct bundler_available.
  - rewrite bind_result, bind_events, bind_files, RunSubprocess_run.
    case_decide as Hexit; cbn [result files events].
    { split_and!; try done. intros e [= <-]. by left. }
    assert (exit_status env "bundle platform --ruby" fs = 0%Z) as Hzero.
    { destruct (decide (exit_status env "bundle platform --ruby" fs = 0%Z));
        [done|by destruct Hexit]. }
    destruct (match_No _); cbn [negb].
    { destruct (Hfile (tree_after env "bundle platform --ruby" fs)
                  [EvPopen "bundle platform --ruby"]) as (H1 & H2 & H3).
      split_and!; [done..|]. intros e He. right.
      apply H3 in He as (-> & Hnode & Hlast). by split_and!. }
    destruct (match_ruby_version _) as [v|].
    + rewrite bind_result, bind_events.
      cbn [log_status_Print emit ret result files events].
      split_and!; try done.
      intros v' [= <-]. exists "Gemfile.". split; [by left|]. done.
    + rewrite bind_result, bind_events, bind_files.
      cbn [log_status_Print emit result files events].
      destruct (Hfile (tree_after env "bundle platform --ruby" fs)
                  [EvPopen "bundle platform --ruby";
                   EvStatusPrint
                     ("Unrecognized platform in Gemfile: ["
                      +:+ stdout_of env "bundle platform --ruby" fs +:+ "]")])
        as (H1 & H2 & H3).
      split_and!; [done..|]. intros e He. right.
      apply H3 in He as (-> & Hnode & Hlast). by split_and!.
  - destruct (Hfile fs []) as (H1 & H2 & H3).
    split_and!; [done..|]. intros e He. right.
    apply H3 in He as (-> & Hnode & Hlast). by split_and!.
Qed.

Lemma DetectRubyInterpreter_announces_witness :
  ∃ source,
    (source = "Gemfile." ∨ source = ".ruby-version file")
    ∧ last (events (_DetectRubyInterpreter gemfile_ruby_env "app" true
                      gemfile_tree))
      = Some (EvStatusPrint (Py.nl +:+ "Using Ruby " +:+ "2.0.0-p648"
                             +:+ " as requested in the " +:+ source)).
Proof.
  apply (DetectRubyInterpreter_announces gemfile_ruby_env "app" true
           gemfile_tree).
  vm_compute. reflexivity.
Defined.

(** ** The interactive choice of the entrypoint *)

(** X14. On a terminal [_ChooseEntrypoint] asks exactly one question, which
    shows the default when there is one. It leaves the tree as it is. When
    it returns an entrypoint and an app.yaml exists, it then prints the
    hint to add that entrypoint to the app.yaml; without app.yaml, or when
    it raises, it prints nothing. *)
Theorem ChooseEntrypoint_interactive_events
    (env : Collaborators) (default_entrypoint : string)
    (ai : option AppInfoExternal) (fs : filesystem) :
  CanPrompt env = true →
  let r := _ChooseEntrypoint env default_entrypoint ai fs in
  let prompt := if Py.truthy default_entrypoint
                then prompt_with_default default_entrypoint
                else prompt_without_default in
  files r = fs
  ∧ events r
    = ([EvCanPrompt; EvPromptResponse prompt]
       ++ match result r, ai with
          | Returned e, Some _ => [EvStatusPrint (entrypoint_hint e)]
          | _, _ => []
          end)%list.
Proof.
  intros Hcan r prompt. subst r prompt.
  unfold _ChooseEntrypoint, bind, console_io_CanPrompt, entrypoint_hint.
  cbn [result files events]. rewrite Hcan.
  destruct (Py.truthy default_entrypoint);
    cbn [console_io_PromptResponse result files events];
    destruct (Py.truthy (Py.strip _));
    cbn [negb ret raise result files events];
    destruct ai; split; reflexivity.
Qed.

Lemma ChooseEntrypoint_interactive_events_witness :
  let r := _ChooseEntrypoint terminal_env ENTRYPOINT_RACKUP
             (appinfo ruby_appinfo) rack_tree in
  let prompt := if Py.truthy ENTRYPOINT_RACKUP
                then prompt_with_default ENTRYPOINT_RACKUP
                else prompt_without_default in
  files r = rack_tree
  ∧ events r
    = ([EvCanPrompt; EvPromptResponse prompt]
       ++ match result r, appinfo ruby_appinfo with
          | Returned e, Some _ => [EvStatusPrint (entrypoint_hint e)]
          | _, _ => []
          end)%list.
Proof.
  apply (ChooseEntrypoint_interactive_events terminal_env ENTRYPOINT_RACKUP
           (appinfo ruby_appinfo) rack_tree).
  reflexivity.
Defined.

(** ** The packages of the table as it stands *)

Lemma GEM_PACKAGES_lookup gem pkgs :
  GEM_PACKAGES !! gem = Some pkgs ↔
  gem = "rgeo" ∧ pkgs = ["libgeos-dev"; "libproj-dev"].
Proof.
  unfold GEM_PACKAGES. cbn [list_to_map foldr uncurry fst snd].
  rewrite lookup_insert_Some, lookup_empty. split.
  - intros [[<- <-]|[_ [=]]]. done.
  - intros [-> ->]. by left.
Qed.

Lemma needed_packages_members gems p :
  p ∈ _DetectNeededPackages gems
  ↔ "rgeo" ∈ gems ∧ (p = "libgeos-dev" ∨ p = "libproj-dev").
Proof.
  unfold _DetectNeededPackages. rewrite needed_packages_in_elem.
  unfold contributed. setoid_rewrite GEM_PACKAGES_lookup. split.
  - intros (? & ? & ? & [-> ->] & Hp). split; [done|].
    apply elem_of_cons in Hp as [->|Hp]; [by left|].
    apply list_elem_of_singleton in Hp as ->. by right.
  - intros [? Hp]. exists "rgeo", ["libgeos-dev"; "libproj-dev"].
    split_and!; [done..|]. rewrite !elem_of_cons. destruct Hp; auto.
Qed.

(** X15. With the table of the module, the extra packages depend on one
    thing only: whether rgeo is among the gems. If it is, they are
    libgeos-dev and libproj-dev, in this order; if not, there are none. *)
Theorem DetectNeededPackages_rgeo (gems : list string) :
  _DetectNeededPackages gems
  = if bool_decide ("rgeo" ∈ gems) then ["libgeos-dev"; "libproj-dev"] else [].
Proof.
  apply sorted_set_unique.
  - apply needed_packages_in_sorted.
  - case_bool_decide; [|constructor].
    repeat constructor; by vm_compute.
  - apply needed_packages_in_NoDup.
  - case_bool_decide; [|constructor].
    apply NoDup_cons. split; [|apply NoDup_singleton].
    by intros [=]%list_elem_of_singleton.
  - intros p. rewrite needed_packages_members. case_bool_decide as Hrgeo.
    + rewrite !elem_of_cons, elem_of_nil. intuition.
    + rewrite elem_of_nil. intuition.
Qed.

(** ** Writing the candidates: [GenerateConfigs] *)

Lemma mapM_cons_run {A B} (f : A → M B) x l fs :
  mapM f (x :: l) fs =
  match result (f x fs) with
  | Returned y =>
      match result (mapM f l (files (f x fs))) with
      | Returned ys =>
          MkRun (Returned (y :: ys)) (files (mapM f l (files (f x fs))))
                (events (f x fs) ++ events (mapM f l (files (f x fs))))
      | Raised e =>
          MkRun (Raised e) (files (mapM f l (files (f x fs))))
                (events (f x fs) ++ events (mapM f l (files (f x fs))))
      end
  | Raised e => MkRun (Raised e) (files (f x fs)) (events (f x fs))
  end.
Proof.
  cbn [mapM]. unfold bind at 1. destruct (result (f x fs)); [|done].
  unfold bind. destruct (result (mapM f l _)); cbn [result files events ret];
    by rewrite ?app_nil_r.
Qed.

(** The writes of a list of candidates, one after the other. *)
Lemma write_all dest notify_fn l : ∀ fs,
  let r := mapM (λ f, WriteTo f dest notify_fn) l fs in
  ∃ created,
    result r = Returned created
    ∧ (Py.any created = true ↔ ∃ f, f ∈ l ∧ fs !! target dest f = None)
    ∧ Py.any created = existsb write_event (events r)
    ∧ (Py.any created = false → files r = fs)
    ∧ (∀ f, f ∈ l → is_Some (files r !! target dest f)).
Proof.
  induction l as [|x l IH]; intros fs r; subst r.
  { exists []. cbn [mapM ret result files events]. split_and!; try done.
    - split; [done|]. by intros (f & ?%elem_of_nil & _).
    - by intros f ?%elem_of_nil. }
  rewrite mapM_cons_run, WriteTo_run. cbv zeta. fold (target dest x).
  assert (keeps_files (mapM (λ f, WriteTo f dest notify_fn) l)) as Hkeeps
    by (apply keeps_files_mapM; intros f; apply keeps_files_WriteTo).
  destruct (fs !! target dest x) as [n|] eqn:Hx; cbn [result files events].
  - destruct (IH fs) as (created & -> & Hany & Hwrite & Hsame & Hall).
    exists (false :: created). cbn [result files events].
    change (Py.any (false :: created)) with (Py.any created).
    split_and!; try done.
    + rewrite Hany. split; intros (f & Hf & Hnone).
      * exists f. by rewrite elem_of_cons; auto.
      * apply elem_of_cons in Hf as [->|Hf]; [congruence|eauto].
    + intros f [->|Hf]%elem_of_cons; [|by apply Hall].
      rewrite (Hkeeps fs _ n Hx). eauto.
  - destruct (IH (<[target dest x := File (contents x)]> fs))
      as (created & -> & Hany & Hwrite & Hsame & Hall).
    exists (true :: created). cbn [result files events].
    change (Py.any (true :: created)) with true.
    split_and!; try done.
    + split; [|done]. intros _. exists x. by rewrite elem_of_cons; auto.
    + intros f [->|Hf]%elem_of_cons; [|by apply Hall].
      erewrite Hkeeps; [eauto|]. apply lookup_insert_eq.
Qed.

Lemma GenerateConfigs_run env self fs :
  let w := mapM (λ f, WriteTo f (root self) (notify (params self)))
             (all_config_files env self) fs in
  ∀ created, result w = Returned created →
    GenerateConfigs env self fs
    = MkRun (Returned (Py.any created)) (files w)
            (events w ++ if Py.any created then []
                         else [nothing_generated (params self)]).
Proof.
  intros w created Hw. subst w. unfold GenerateConfigs, nothing_generated.
  unfold bind at 1. rewrite Hw.
  unfold notify, bind, log_info, log_status_Print, emit.
  destruct (Py.any created), (deploy (params self));
    cbn [negb ret result files events]; by rewrite ?app_nil_r.
Qed.

(** X16. [GenerateConfigs] returns whether it has written a file, and it
    writes exactly when one of its candidates has no node under the root.
    When it has written nothing the tree is as before and the last thing it
    does is to say that all config files already exist; when it has written,
    it does not say so. In either case every candidate has a node under the
    root afterwards. ([WriteTo] is the model from the spec.) *)
Theorem GenerateConfigs_reports_writes
    (env : Collaborators) (self : RubyConfigurator) (fs : filesystem) :
  let r := GenerateConfigs env self fs in
  ∃ written,
    result r = Returned written
    ∧ written = existsb write_event (events r)
    ∧ (written = true
       ↔ ∃ f, f ∈ all_config_files env self
              ∧ fs !! target (root self) f = None)
    ∧ (written = false →
       files r = fs ∧ last (events r) = Some (nothing_generated (params self)))
    ∧ (written = true → nothing_generated (params self) ∉ events r)
    ∧ (∀ f, f ∈ all_config_files env self →
            is_Some (files r !! target (root self) f)).
Proof.
  intros r. subst r.
  destruct (write_all (root self) (notify (params self))
              (all_config_files env self) fs)
    as (created & Hw & Hany & Hwrite & Hsame & Hall).
  rewrite (GenerateConfigs_run env self fs created Hw).
  exists (Py.any created). cbn [result files events].
  assert (Forall (λ ev, ev ≠ nothing_generated (params self))
            (events (mapM (λ f, WriteTo f (root self) (notify (params self)))
                       (all_config_files env self) fs))) as Hquiet.
  { generalize fs. generalize (all_config_files env self).
    unfold nothing_generated.
    induction l as [|x l IH]; intros fs'; [constructor|].
    rewrite mapM_cons_run, WriteTo_run. cbv zeta.
    destruct (fs' !! _); cbn [result files events];
      destruct (result (mapM _ l _)); cbn [events];
      repeat (apply Forall_cons; split; [by destruct (deploy _)|]);
      apply IH. }
  split_and!; try done.
  - rewrite existsb_app, <-Hwrite. destruct (Py.any created); [done|].
    unfold nothing_generated. by destruct (deploy (params self)).
  - intros Hnone. split; [by apply Hsame|].
    rewrite Hnone. apply last_snoc.
  - intros ->. rewrite app_nil_r. intros Hin.
    by eapply Forall_forall in Hquiet.
Qed.

(** X17. [GenerateConfigs] run a second time, on the tree that the first
    run left, finds every candidate in place: it writes nothing, leaves the
    tree as it is, says that all config files already exist, and returns
    False. *)
Theorem GenerateConfigs_second_run
    (env : Collaborators) (self : RubyConfigurator) (fs : filesystem) :
  let first := GenerateConfigs env self fs in
  let second := GenerateConfigs env self (files first) in
  result second = Returned false
  ∧ files second = files first
  ∧ existsb write_event (events second) = false
  ∧ last (events second) = Some (nothing_generated (params self)).
Proof.
  intros first second. subst first second.
  destruct (write_all (root self) (notify (params self))
              (all_config_files env self) fs)
    as (created1 & Hw1 & _ & _ & _ & Hall).
  rewrite (GenerateConfigs_run env self fs created1 Hw1). cbn [files].
  set (fs1 := files (mapM (λ f, WriteTo f (root self) (notify (params self)))
                       (all_config_files env self) fs)) in *.
  destruct (write_all (root self) (notify (params self))
              (all_config_files env self) fs1)
    as (created2 & Hw2 & Hany & Hwrite & Hsame & _).
  rewrite (GenerateConfigs_run env self fs1 created2 Hw2).
  destruct (Py.any created2) eqn:Hcreated.
  { destruct (proj1 Hany eq_refl) as (f & Hf & Hnone).
    apply Hall in Hf as [n Hn]. congruence. }
  cbn [result files events]. split_and!.
  - done.
  - by apply Hsame.
  - rewrite existsb_app, <-Hwrite. unfold nothing_generated.
    by destruct (deploy (params self)).
  - apply last_snoc.
Qed.

Example deploy_twice :
  let first := GenerateConfigs batch_env deploy_configurator gemfile_tree in
  let second := GenerateConfigs batch_env deploy_configurator (files first) in
  result first = Returned true
  ∧ result second = Returned false
  ∧ events second
    = [ EvExists "app/app.yaml"; EvExists "app/Dockerfile";
        EvExists "app/.dockerignore";
        EvLogInfo "All config files already exist. No files generated." ].
Proof. vm_compute. split_and!; reflexivity. Qed.

(** ** The files for the caller: [GenerateConfigData] *)

Lemma absent_files_run dest l fs :
  filterM (λ f, present ← os_path_exists (Py.os_path_join dest (filename f));
                ret (negb present)) l fs
  = MkRun (Returned (filter (λ f, path_exists fs (target dest f) = false) l))
          fs (EvExists <$> (target dest <$> l)).
Proof.
  induction l as [|x l IH]; [done|].
  cbn [filterM]. unfold bind, os_path_exists in *.
  cbn [result files events ret] in *. rewrite IH.
  cbn [result files events ret fmap list_fmap app]. rewrite app_nil_r.
  rewrite filter_cons. unfold target at 1.
  by destruct (path_exists fs _).
Qed.

(** X18. [GenerateConfigData] writes app.yaml at most, and only when no
    app.yaml was parsed and none is in the tree; every other path is left
    as it is. It never writes the Dockerfile or .dockerignore: it returns,
    of the two, those that have no node under the root, and only for a
    custom runtime or a deploy. ([WriteTo] is the model from the spec.) *)
Theorem GenerateConfigData_behaviour
    (env : Collaborators) (self : RubyConfigurator) (fs : filesystem) :
  let r := GenerateConfigData env self fs in
  let yaml := Py.os_path_join (root self) "app.yaml" in
  (∀ p, p ≠ yaml → files r !! p = fs !! p)
  ∧ (is_Some (appinfo (params self)) ∨ is_Some (fs !! yaml) → files r = fs)
  ∧ (∀ p c, EvWrite p c ∈ events r →
            p = yaml ∧ appinfo (params self) = None ∧ fs !! yaml = None)
  ∧ result r
    = Returned (filter (λ f, path_exists (files r) (target (root self) f)
                             = false)
                       (docker_files env self)).
Proof.
  intros r yaml. subst r. unfold GenerateConfigData.
  change (if custom (params self) || deploy (params self)
          then [_GenerateDockerfile env self; _GenerateDockerignore self]
          else []) with (docker_files env self).
  cbv zeta.
  assert (∀ p c, EvWrite p c ∉ EvExists <$> (target (root self)
                                             <$> docker_files env self))
    as Hprobe.
  { intros p c (? & [=] & _)%list_elem_of_fmap. }
  destruct (appinfo (params self)) as [ai|] eqn:Hai;
    [|destruct (fs !! yaml) as [n|] eqn:Hyaml];
    repeat first
      [ rewrite bind_files | rewrite bind_events | rewrite bind_result
      | rewrite absent_files_run
      | rewrite WriteTo_run; cbv zeta;
        change (Py.os_path_join (root self) (filename (_GenerateAppYaml self)))
          with yaml; rewrite Hyaml
      | progress cbn [ret result files events app] ].
  - split_and!; try done. intros p c Hin. by apply Hprobe in Hin.
  - split_and!; try done. intros p c [[=]|Hin]%elem_of_cons.
    by apply Hprobe in Hin.
  - split_and!; try done.
    + intros p Hp. by rewrite lookup_insert_ne.
    + by intros [[? [=]]|[? [=]]].
    + intros p c [[=]|[[= -> _]|Hin]%elem_of_cons]%elem_of_cons; [done|].
      by apply Hprobe in Hin.
Qed.

Example config_data_customised_tree :
  let r := GenerateConfigData batch_env deploy_configurator customised_tree in
  filename <$> default [] (match result r with
                           | Returned l => Some l
                           | Raised _ => None
                           end)
  = [".dockerignore"]
  ∧ files r !! "app/Dockerfile" = Some (File "FROM ruby:2.3")
  ∧ files r !! "app/.dockerignore" = None.
Proof. vm_compute. split_and!; reflexivity. Qed.

(** ** The lines of the Dockerfile: [_GenerateDockerfile] *)

Lemma splitlines_text ls rest :
  Forall (λ l, Py.single_line l = true) ls →
  Py.splitlines (text ls +:+ rest) = (ls ++ Py.splitlines rest)%list.
Proof.
  induction 1 as [|l ls Hl _ IH]; [done|].
  cbn [text]. rewrite !append_assoc, splitlines_line by done.
  by rewrite IH.
Qed.

Lemma splitlines_blank rest :
  Py.splitlines (Py.nl +:+ rest) = "" :: Py.splitlines rest.
Proof. reflexivity. Qed.

Lemma single_line_join l :
  Forall (λ p, Py.single_line p = true) l → Py.single_line (Py.join " " l) = true.
Proof.
  induction 1 as [|p l Hp Hl IH]; [done|].
  destruct l as [|q l]; [done|].
  change (Py.join " " (p :: q :: l)) with (p +:+ " " +:+ Py.join " " (q :: l)).
  by repeat apply single_line_app.
Qed.

Ltac solve_single_line :=
  repeat first
    [ reflexivity | assumption
    | apply single_line_app | apply Forall_cons; split | apply Forall_nil ].

(** X19. For an entrypoint, a version and package names that have no line
    break, the Dockerfile reads line by line as intended: its last line is
    the ENTRYPOINT instruction with the entrypoint as given; it has the FROM
    line of the base image and the line that installs the bundle; a
    non-empty version is installed and put into the environment; and the
    packages, if any, stand on one line, separated by single spaces. *)
Theorem Dockerfile_lines (env : Collaborators) (self : RubyConfigurator) :
  Py.single_line (entrypoint self) = true →
  (∀ v, ruby_version self = Some v → Py.single_line v = true) →
  Forall (λ p, Py.single_line p = true) (packages self) →
  let lines := Py.splitlines (contents (_GenerateDockerfile env self)) in
  last lines = Some ("ENTRYPOINT " +:+ entrypoint self)
  ∧ "FROM gcr.io/google_appengine/ruby" ∈ lines
  ∧ "RUN bundle install --deployment && rbenv rehash" ∈ lines
  ∧ (∀ v, ruby_version self = Some v → v ≠ "" →
          ("    rbenv install -s " +:+ v +:+ " && \") ∈ lines
          ∧ ("ENV RBENV_VERSION " +:+ v) ∈ lines)
  ∧ (packages self ≠ [] →
     ("        " +:+ Py.join " " (packages self) +:+ " \") ∈ lines).
Proof.
  intros He Hv Hp lines. subst lines.
  apply single_line_join in Hp as Hjoin.
  unfold _GenerateDockerfile. cbn [contents Py.join].
  unfold DOCKERFILE_HEADER, DOCKERFILE_GEM_INSTALL, DOCKERFILE_ENTRYPOINT.
  rewrite splitlines_text, splitlines_blank by solve_single_line.
  assert (Py.splitlines
            (text ["# Install required gems.";
                   "COPY Gemfile Gemfile.lock /app/";
                   "RUN bundle install --deployment && rbenv rehash"]
             +:+ Py.nl
             +:+ text ["# Start application on port 8080."; "COPY . /app/";
                       "ENTRYPOINT " +:+ entrypoint self])
          = ["# Install required gems.";
             "COPY Gemfile Gemfile.lock /app/";
             "RUN bundle install --deployment && rbenv rehash";
             "";
             "# Start application on port 8080."; "COPY . /app/";
             "ENTRYPOINT " +:+ entrypoint self]) as Htail.
  { rewrite splitlines_text, splitlines_blank by solve_single_line.
    rewrite <-(append_nil_r (text [_; _; _])).
    by rewrite splitlines_text by solve_single_line. }
  destruct (ruby_version self) as [v|] eqn:Hversion;
    [destruct (Py.truthy v) eqn:Htruthy|];
    destruct (packages self) as [|p ps] eqn:Hpackages;
    unfold DOCKERFILE_CUSTOM_INTERPRETER, DOCKERFILE_DEFAULT_INTERPRETER,
      DOCKERFILE_MORE_PACKAGES, DOCKERFILE_NO_MORE_PACKAGES;
    (rewrite splitlines_text, splitlines_blank by
       (try pose proof (Hv _ eq_refl); solve_single_line));
    (rewrite splitlines_text, splitlines_blank by solve_single_line);
    rewrite Htail;
    (split_and!;
     [ reflexivity
     | apply list_elem_of_In; cbn [app In]; tauto
     | apply list_elem_of_In; cbn [app In]; tauto
     | intros v' [= <-] Hne;
       try (by apply truthy_nonempty in Hne; congruence);
       split; apply list_elem_of_In; cbn [app In]; tauto
     | intros Hnonempty; try done;
       apply list_elem_of_In; cbn [app In]; tauto ]).
Qed.

Lemma Dockerfile_lines_witness :
  let lines := Py.splitlines
                 (contents (_GenerateDockerfile batch_env deploy_configurator))
  in
  last lines = Some ("ENTRYPOINT " +:+ entrypoint deploy_configurator)
  ∧ "FROM gcr.io/google_appengine/ruby" ∈ lines
  ∧ "RUN bundle install --deployment && rbenv rehash" ∈ lines
  ∧ (∀ v, ruby_version deploy_configurator = Some v → v ≠ "" →
          ("    rbenv install -s " +:+ v +:+ " && \") ∈ lines
          ∧ ("ENV RBENV_VERSION " +:+ v) ∈ lines)
  ∧ (packages deploy_configurator ≠ [] →
     ("        " +:+ Py.join " " (packages deploy_configurator) +:+ " \")
     ∈ lines).
Proof.
  apply (Dockerfile_lines batch_env deploy_configurator).
  - reflexivity.
  - intros v [= <-]. reflexivity.
  - repeat constructor.
Defined.

(** ** The text of app.yaml: [_GenerateAppYaml] *)





(** ** The configurator that a fingerprint returns *)

(** X20. A configurator that the fingerprint returns is for the path and
    the parameters that the fingerprint was given, and its packages are
    among the two libraries of rgeo. When the app.yaml does not name an
    entrypoint, the run was able to prompt. *)
Theorem Fingerprint_configurator
    (env : Collaborators) (path : string) (given : Params) (fs : filesystem)
    (cfg : RubyConfigurator) :
  result (Fingerprint env path given fs) = Returned (Some cfg) →
  root cfg = path
  ∧ params cfg = given
  ∧ Forall (λ p, p = "libgeos-dev" ∨ p = "libproj-dev") (packages cfg)
  ∧ (configured_entrypoint (appinfo given) = None → CanPrompt env = true).
Proof.
  intros Hrun. split_and!.
  - unfold Fingerprint in Hrun.
    apply bind_returned in Hrun as (is_ruby & _ & Hrun).
    destruct is_ruby; [|done]. cbn [negb] in Hrun.
    do 4 (apply bind_returned in Hrun as (? & _ & Hrun)).
    by injection Hrun as <-.
  - unfold Fingerprint in Hrun.
    apply bind_returned in Hrun as (is_ruby & _ & Hrun).
    destruct is_ruby; [|done]. cbn [negb] in Hrun.
    do 4 (apply bind_returned in Hrun as (? & _ & Hrun)).
    by injection Hrun as <-.
  - unfold Fingerprint in Hrun.
    apply bind_returned in Hrun as (is_ruby & _ & Hrun).
    destruct is_ruby; [|done]. cbn [negb] in Hrun.
    apply bind_returned in Hrun as (b & _ & Hrun).
    apply bind_returned in Hrun as (gems & _ & Hrun).
    do 2 (apply bind_returned in Hrun as (? & _ & Hrun)).
    injection Hrun as <-. cbn [packages]. apply Forall_forall.
    by intros p [_ Hp]%needed_packages_members.
  - intros Hnone.
    apply Fingerprint_returned in Hrun as [Hcfg|(_ & d & fs' & Hchoice)];
      [congruence|].
    destruct (CanPrompt env) eqn:Hcan; [done|].
    by rewrite ChooseEntrypoint_non_interactive in Hchoice.
Qed.

Lemma Fingerprint_configurator_witness :
  ∃ cfg, result (Fingerprint terminal_env "app" no_appinfo rack_tree)
         = Returned (Some cfg)
         ∧ root cfg = "app"
         ∧ params cfg = no_appinfo
         ∧ Forall (λ p, p = "libgeos-dev" ∨ p = "libproj-dev") (packages cfg)
         ∧ (configured_entrypoint (appinfo no_appinfo) = None →
            CanPrompt terminal_env = true).
Proof.
  eexists. split; [vm_compute; reflexivity|].
  apply (Fingerprint_configurator terminal_env "app" no_appinfo rack_tree).
  vm_compute. reflexivity.
Defined.

(** ** What the user types is trimmed *)

Lemma rstrip_ends_clean s : ends_clean (Py.rstrip s) = true.
Proof.
  induction s as [|a s IH]; [done|]. cbn [Py.rstrip].
  destruct (Py.rstrip s) as [|b r].
  - destruct (Ascii.is_space a) eqn:Ha; [done|]. cbn. by rewrite Ha.
  - exact IH.
Qed.

Lemma rstrip_keeps_head a s :
  Ascii.is_space a = false → ∃ r, Py.rstrip (String a s) = String a r.
Proof.
  intros Ha. cbn [Py.rstrip]. rewrite Ha. destruct (Py.rstrip s); eauto.
Qed.

Lemma strip_trimmed s :
  stops Ascii.is_space (Py.strip s) ∧ ends_clean (Py.strip s) = true.
Proof.
  split; [|apply rstrip_ends_clean].
  unfold Py.strip, Py.lstrip.
  destruct (Py.span Ascii.is_space s) as [ws r] eqn:Hspan. cbn [snd].
  apply span_stops in Hspan. destruct r as [|a r]; [done|].
  cbn [stops] in Hspan. by destruct (rstrip_keeps_head a r Hspan) as [r' ->].
Qed.

(** X21. An entrypoint that [_ChooseEntrypoint] returns is the default, or
    else what the user typed without the white space around it: it is not
    empty, and neither its first nor its last character is white space. *)
Theorem ChooseEntrypoint_trims
    (env : Collaborators) (default_entrypoint : string)
    (ai : option AppInfoExternal) (fs : filesystem) (e : string) :
  result (_ChooseEntrypoint env default_entrypoint ai fs) = Returned e →
  (e = default_entrypoint ∧ default_entrypoint ≠ "")
  ∨ (∃ prompt, e = Py.strip (PromptResponse env prompt)
               ∧ e ≠ "" ∧ stops Ascii.is_space e ∧ ends_clean e = true).
Proof.
  destruct (CanPrompt env) eqn:Hcan.
  - rewrite ChooseEntrypoint_interactive by done.
    destruct (Py.truthy (Py.strip _)) eqn:Hanswer.
    + intros [= <-]. right. eexists. split; [done|].
      split; [by apply truthy_nonempty|]. apply strip_trimmed.
    + destruct (Py.truthy default_entrypoint) eqn:Hdefault; [|done].
      intros [= <-]. left. split; [done|]. by apply truthy_nonempty.
  - by rewrite ChooseEntrypoint_non_interactive.
Qed.

Lemma ChooseEntrypoint_trims_witness :
  (ENTRYPOINT_RACKUP = ENTRYPOINT_RACKUP ∧ ENTRYPOINT_RACKUP ≠ "")
  ∨ (∃ prompt, ENTRYPOINT_RACKUP = Py.strip (PromptResponse terminal_env prompt)
               ∧ ENTRYPOINT_RACKUP ≠ ""
               ∧ stops Ascii.is_space ENTRYPOINT_RACKUP
               ∧ ends_clean ENTRYPOINT_RACKUP = true).
Proof.
  apply (ChooseEntrypoint_trims terminal_env ENTRYPOINT_RACKUP None rack_tree).
  vm_compute. reflexivity.
Defined.
